(** * Account registration core of fosscord-server

    A shallow embedding of the two registration paths of the server,

    - the [POST /auth/register] route handler and its helper [adjustEmail]
      (api/src/routes/auth/register.ts), and
    - the static method [User.register] of the [User] entity,

    together with the properties of discriminator allocation, e-mail
    canonicalisation, the order and shape of the rejections, and the
    persistence of an account with its settings.

    JavaScript strings are modelled as [string]: a sequence of code units
    below 256.  Optional request fields ([undefined] or [null] in the body)
    are [option] values. *)

From Stdlib Require Import String Ascii List ZArith Lia Bool Arith.
Import ListNotations.

Local Open Scope string_scope.
Local Open Scope Z_scope.

(** ** JavaScript string primitives *)

Module JS.

(** Truthiness of a string value: the empty string is falsy. *)
Definition truthy (s : string) : bool :=
  match s with
  | EmptyString => false
  | String _ _ => true
  end.

(** Truthiness of a possibly-undefined string. *)
Definition truthy_opt (o : option string) : bool :=
  match o with
  | None => false
  | Some s => truthy s
  end.

(** Strict equality [a === lit] between a possibly-undefined value and a
    string literal. *)
Definition strict_eq (o : option string) (lit : string) : bool :=
  match o with
  | None => false
  | Some s => String.eqb s lit
  end.

(** Line terminators, the characters that [.] does not match in a
    regular expression (LF and CR are the ones below 256). *)
Definition is_line_terminator (c : ascii) : bool :=
  (Ascii.eqb c "010" || Ascii.eqb c "013")%char.

(** One decimal digit. *)
Definition digit_char (d : Z) : ascii :=
  ascii_of_nat (48 + Z.to_nat d).

Definition is_digit (c : ascii) : bool :=
  ((48 <=? nat_of_ascii c) && (nat_of_ascii c <=? 57))%nat.

(** [Number.prototype.toString()] on a non-negative integer: the decimal
    digits, most significant first, with no leading zero.  [fuel] bounds
    the number of digits. *)
Fixpoint digits_aux (fuel : nat) (n : Z) (acc : string) : string :=
  match fuel with
  | O => acc
  | S fuel' =>
      let acc' := String (digit_char (n mod 10)) acc in
      if n / 10 =? 0 then acc' else digits_aux fuel' (n / 10) acc'
  end.

Definition toString (n : Z) : string :=
  digits_aux (S (Z.to_nat (Z.log2 n))) n EmptyString.

(** [String.prototype.padStart(targetLength, pad)] with a one-character
    pad string. *)
Fixpoint repeat_char (c : ascii) (k : nat) : string :=
  match k with
  | O => EmptyString
  | S k' => String c (repeat_char c k')
  end.

Definition padStart (s : string) (target : nat) (pad : ascii) : string :=
  repeat_char pad (target - String.length s) ++ s.

(** Value of a string of decimal digits. *)
Fixpoint decimal_value_aux (s : string) (acc : Z) : Z :=
  match s with
  | EmptyString => acc
  | String c r => decimal_value_aux r (10 * acc + (Z.of_nat (nat_of_ascii c) - 48))
  end.

Definition decimal_value (s : string) : Z := decimal_value_aux s 0.

Fixpoint all_chars (p : ascii -> bool) (s : string) : bool :=
  match s with
  | EmptyString => true
  | String c r => p c && all_chars p r
  end.

(** The global replacement of [user.replace] in [adjustEmail], whose
    pattern is the alternation of a literal dot and of a plus sign followed
    by a greedy run of any characters, each match being replaced by the
    empty string: scanning from the left, every dot is removed, and every
    plus sign is removed together with all that follows it up to the next
    line terminator, where the greedy run stops.  The flag tells whether
    the scan is inside such a run. *)
Fixpoint replace_dots_plus_aux (in_plus : bool) (s : string) : string :=
  match s with
  | EmptyString => EmptyString
  | String c r =>
      if in_plus then
        if is_line_terminator c
        then String c (replace_dots_plus_aux false r)
        else replace_dots_plus_aux true r
      else if Ascii.eqb c "." then replace_dots_plus_aux false r
      else if Ascii.eqb c "+" then replace_dots_plus_aux true r
      else String c (replace_dots_plus_aux false r)
  end.

Definition replace_dots_plus (s : string) : string :=
  replace_dots_plus_aux false s.

End JS.

(** ** E-mail canonicalisation: [adjustEmail] *)

(** The result of [String.prototype.match] without the [g] flag: the whole
    match at index 0 followed by one entry per capture group, [undefined]
    for a group that took no part in the match. *)
Definition RegExpMatchArray := list (option string).

(** What evaluating an expression can do besides returning a value. *)
Inductive Exn : Type :=
| HTTPError (message : string)
| FieldErrors (field code : string)
| TypeError
| QueryFailedError (message : string).

Section AdjustEmail.

(** [email.match(EMAIL_REGEX)].  The regular expression is imported from
    util/instanceOf; the function is parametric in it. *)
Variable EMAIL_REGEX : string -> option RegExpMatchArray.

(** [parts[i]]: [undefined] outside the array. *)
Definition index (parts : RegExpMatchArray) (i : nat) : option string :=
  nth i parts None.

Definition adjustEmail (email : string) : Exn + option string :=
  match EMAIL_REGEX email with
  | None => inr None
  | Some parts =>
      if (List.length parts <? 5)%nat then inr None
      else
        let domain := index parts 5 in
        let user := index parts 1 in
        if JS.strict_eq domain "gmail.com" || JS.strict_eq domain "googlemail.com"
        then
          match user with
          | Some u => inr (Some (JS.replace_dots_plus u ++ "@gmail.com"))
          | None => inl TypeError
          end
        else inr (Some email)
  end.

End AdjustEmail.

(** ** The address grammar *)

Module EmailGrammar.

(** Characters of an unquoted atom of the local part: anything but
    angle brackets, parentheses, square brackets, backslash, dot, comma,
    semicolon, colon, white space, the at sign and the double quote. *)
Definition is_space (c : ascii) : bool :=
  let n := nat_of_ascii c in
  ((9 <=? n) && (n <=? 13) || (n =? 32) || (n =? 160))%nat.

Definition atom_char (c : ascii) : bool :=
  negb (is_space c
        || existsb (Ascii.eqb c)
             ["<"; ">"; "("; ")"; "["; "]"; "\"; "."; ","; ";"; ":"; "@"; "034"]%char).

Definition is_letter (c : ascii) : bool :=
  let n := nat_of_ascii c in
  ((65 <=? n) && (n <=? 90) || (97 <=? n) && (n <=? 122))%nat.

Definition label_char (c : ascii) : bool :=
  is_letter c || JS.is_digit c || Ascii.eqb c "-".

(** Splits at the last at sign. *)
Fixpoint split_last_at (s : string) : option (string * string) :=
  match s with
  | EmptyString => None
  | String c r =>
      match split_last_at r with
      | Some (a, b) => Some (String c a, b)
      | None => if Ascii.eqb c "@" then Some (EmptyString, r) else None
      end
  end.

(** The pieces of [s] between occurrences of [sep]. *)
Fixpoint split_on (sep : ascii) (s : string) : list string :=
  match s with
  | EmptyString => [EmptyString]
  | String c r =>
      if Ascii.eqb c sep then EmptyString :: split_on sep r
      else
        match split_on sep r with
        | [] => [String c EmptyString]
        | p :: ps => String c p :: ps
        end
  end.

Definition nonempty (s : string) : bool := JS.truthy s.

(** Unquoted local part: one or more non-empty atoms separated by dots. *)
Definition unquoted_local (s : string) : bool :=
  forallb (fun a => nonempty a && JS.all_chars atom_char a) (split_on "." s).

(** Quoted local part: a double quote, one or more characters none of
    which is a line terminator, a double quote. *)
Fixpoint quoted_rest (seen : nat) (s : string) : bool :=
  match s with
  | EmptyString => false
  | String c EmptyString => Ascii.eqb c "034" && (1 <=? seen)%nat
  | String c r => negb (JS.is_line_terminator c) && quoted_rest (S seen) r
  end.

Definition quoted_local (s : string) : bool :=
  match s with
  | String c r => Ascii.eqb c "034" && quoted_rest 0 r
  | EmptyString => false
  end.

(** Domain name: one or more labels of letters, digits and hyphens, each
    followed by a dot, then at least two letters. *)
Fixpoint domain_labels (ls : list string) : bool :=
  match ls with
  | [] => false
  | [tld] => (2 <=? String.length tld)%nat && JS.all_chars is_letter tld
  | l :: rest => nonempty l && JS.all_chars label_char l && domain_labels rest
  end.

Definition domain_name (s : string) : bool :=
  (2 <=? List.length (split_on "." s))%nat && domain_labels (split_on "." s).

(** Address literal: four groups of one to three digits separated by dots,
    within square brackets. *)
Definition octet (s : string) : bool :=
  (1 <=? String.length s)%nat && (String.length s <=? 3)%nat
  && JS.all_chars JS.is_digit s.

Fixpoint strip_last (s : string) : option (string * ascii) :=
  match s with
  | EmptyString => None
  | String c EmptyString => Some (EmptyString, c)
  | String c r =>
      match strip_last r with
      | Some (a, l) => Some (String c a, l)
      | None => None
      end
  end.

Definition ip_literal (s : string) : bool :=
  match s with
  | String c r =>
      Ascii.eqb c "[" &&
      match strip_last r with
      | Some (inner, l) =>
          Ascii.eqb l "]" && (List.length (split_on "." inner) =? 4)%nat
          && forallb octet (split_on "." inner)
      | None => false
      end
  | EmptyString => false
  end.

(** Last repetition of a starred or plussed group. *)
Definition last_piece (ls : list string) : option string :=
  match rev ls with
  | p :: _ => Some p
  | [] => None
  end.

Definition penultimate (ls : list string) : option string :=
  match rev ls with
  | _ :: p :: _ => Some p
  | _ => None
  end.

(** Modelled from the spec: the constant [EMAIL_REGEX] of util/instanceOf,
    which is not among the sources.  The spec says that the input is parsed
    into local part and domain and that nothing is returned when it does
    not match a valid address grammar; [adjustEmail] reads the local part
    at index 1 and the domain at index 5 of the match.  The grammar is:
    a local part that is either dot-separated atoms or a quoted string, an
    at sign, and a domain that is either a bracketed address literal or a
    dotted name ending in at least two letters; the eight groups are, in
    order, the local part, its unquoted form, the last dotted atom, the
    quoted form, the domain, the address literal, the dotted name and its
    last dotted label. *)
Definition EMAIL_REGEX (s : string) : option RegExpMatchArray :=
  match split_last_at s with
  | None => None
  | Some (local, domain) =>
      let unq := unquoted_local local in
      let quo := quoted_local local in
      let ip := ip_literal domain in
      let nm := domain_name domain in
      if (unq || quo) && (ip || nm) then
        Some [ Some s;
               Some local;
               (if unq then Some local else None);
               (if unq then
                  match split_on "." local with
                  | _ :: _ :: _ =>
                      option_map (fun a => String "." a) (last_piece (split_on "." local))
                  | _ => None
                  end
                else None);
               (if unq then None else Some local);
               Some domain;
               (if ip then Some domain else None);
               (if ip then None else Some domain);
               (if ip then None
                else option_map (fun l => l ++ ".") (penultimate (split_on "." domain))) ]
      else None
  end.

End EmailGrammar.

(** ** Data model *)

Module Config.

(** The part of the process-wide configuration that registration reads:
    [register.*] and [security.captcha.*]. *)
Record t := {
  blockProxies : bool;
  allowNewRegistration : bool;
  requireInvite : bool;
  email_necessary : bool;
  dateOfBirth_necessary : bool;
  dateOfBirth_minimum : Z;
  allowMultipleAccounts : bool;
  requireCaptcha : bool;
  captcha_enabled : bool;
  captcha_sitekey : option string;
  captcha_service : option string
}.

End Config.

Module Body.

(** The request body after validation; a field marked optional in the
    schema may be absent. Dates are milliseconds since the epoch. *)
Record t := {
  email : option string;
  username : string;
  password : string;
  consent : bool;
  fingerprint : option string;
  invite : option string;
  date_of_birth : option Z;
  gift_code_sku_id : option string;
  captcha_key : option string
}.

End Body.

Module UserSettings.

Record t := { locale : option string }.

Definition create (language : option string) : t := {| locale := language |}.

End UserSettings.

Module User.

(** The columns of the [users] table that registration sets, and the
    settings relation. *)
Record t := {
  id : string;
  created_at : Z;
  username : string;
  discriminator : string;
  avatar : option string;
  accent_color : option Z;
  banner : option string;
  phone : option string;
  desktop : bool;
  mobile : bool;
  premium : bool;
  premium_type : Z;
  bot : bool;
  bio : string;
  system : bool;
  nsfw_allowed : bool;
  mfa_enabled : bool;
  premium_since : option Z;
  verified : bool;
  disabled : bool;
  deleted : bool;
  email : option string;
  flags : string;
  public_flags : Z;
  rights : string;
  data_hash : option string;
  data_valid_tokens_since : Z;
  fingerprints : list string;
  settings : UserSettings.t;
  extended_settings : string
}.

End User.

(** The two tables the registration writes.  A table is the list of the
    rows written by committed saves, oldest first; a row is visible to a
    read when it occurs in the list. *)
Record Store := {
  users : list User.t;
  user_settings : list UserSettings.t
}.

(** The state a request runs in: the store, the number of random draws it
    has made and the number of saves it has issued. *)
Record St := {
  store : Store;
  draws : nat;
  saves : nat
}.

(** The request object as far as registration reads it. *)
Record Request := { language : option string }.

Module RegisterInput.

(** The argument of [User.register]: the fields its type declares. *)
Record t := {
  username : string;
  password : option string;
  email : option string;
  date_of_birth : option Z;
  id : option string;
  req : option Request
}.

End RegisterInput.

(** The answers of the collaborators outside the core, fixed for one
    request. *)
Record World := {
  (** [isProxy(await IPAnalysis(ip))] *)
  ip_is_proxy : bool;
  (** [new Date()] *)
  now : Z;
  (** [Snowflake.generate()] *)
  snowflake : string;
  (** the successive results of [Math.randomIntBetween(1, 9999)] *)
  random : nat -> Z;
  (** [bcrypt.hash(password, 12)] *)
  bcrypt_hash : string -> string;
  (** [generateToken(user.id)] *)
  token_of : string -> string;
  (** the row found by the query on [fingerprints], if any *)
  fingerprint_query : list User.t -> option string -> option User.t;
  (** rows committed by other requests between this request's last read
      and its save *)
  concurrent_commits : list User.t;
  (** the engine's verdict on saving an account: the error it raises *)
  user_save_rejects : Store -> User.t -> option string;
  (** the engine's verdict on saving a settings row on its own *)
  settings_save_rejects : Store -> UserSettings.t -> option string
}.

(** What the handler sends back. *)
Inductive Response : Type :=
| Json_token (token : string)
| Captcha_required (sitekey service : option string).

(** ** Control flow: exceptions, early return and state *)

Inductive Completion (A : Type) : Type :=
| Normal (a : A)
| Thrown (e : Exn)
| Returned (r : Response).

Arguments Normal {A} a.
Arguments Thrown {A} e.
Arguments Returned {A} r.

Definition M (A : Type) : Type := St -> Completion A * St.

Definition ret {A} (a : A) : M A := fun st => (Normal a, st).

Definition throw {A} (e : Exn) : M A := fun st => (Thrown e, st).

Definition respond {A} (r : Response) : M A := fun st => (Returned r, st).

Definition bind {A B} (m : M A) (k : A -> M B) : M B :=
  fun st =>
    match m st with
    | (Normal a, st') => k a st'
    | (Thrown e, st') => (Thrown e, st')
    | (Returned r, st') => (Returned r, st')
    end.

Notation "x <- m ;; k" := (bind m (fun x => k))
  (at level 61, m at next level, right associativity).
Notation "m ;; k" := (bind m (fun _ => k))
  (at level 61, right associativity).

(** [if (c) throw e;] *)
Definition throw_if (c : bool) (e : Exn) : M unit :=
  if c then throw e else ret tt.

(** A value or an exception computed without touching the state. *)
Definition lift {A} (r : Exn + A) : M A :=
  match r with
  | inl e => throw e
  | inr a => ret a
  end.

Definition isSome {A} (o : option A) : bool :=
  match o with
  | Some _ => true
  | None => false
  end.

(** ** Persistence *)

Definition option_string_eqb (a : option string) (b : string) : bool :=
  JS.strict_eq a b.

(** [User.findOneOrFail({ email })] with the failure swallowed by
    [.catch]: the first row whose e-mail column has that value. *)
Definition User_findOne_email (email : string) : M (option User.t) :=
  fun st =>
    (Normal (find (fun u => option_string_eqb (User.email u) email)
               (users (store st))), st).

(** [User.findOne({ where: { discriminator, username } })]. *)
Definition User_findOne_tag (discriminator username : string)
  : M (option User.t) :=
  fun st =>
    (Normal (find (fun u => String.eqb (User.discriminator u) discriminator
                            && String.eqb (User.username u) username)
               (users (store st))), st).

(** [User.findOne({ where: { fingerprints: In(fingerprint) } })]. *)
Definition User_findOne_fingerprint (w : World) (fingerprint : option string)
  : M (option User.t) :=
  fun st => (Normal (fingerprint_query w (users (store st)) fingerprint), st).

(** [user.save()].  One engine transaction: the settings relation is
    declared with [cascade: true], so the settings row is written along
    with the account row, and a rejected save writes nothing. *)
Definition User_save (w : World) (user : User.t) : M User.t :=
  fun st =>
    match user_save_rejects w (store st) user with
    | Some message =>
        (Thrown (QueryFailedError message),
         {| store := store st; draws := draws st; saves := S (saves st) |})
    | None =>
        (Normal user,
         {| store :=
              {| users := users (store st) ++ [user];
                 user_settings :=
                   user_settings (store st) ++ [User.settings user] |};
            draws := draws st;
            saves := S (saves st) |})
    end.

(** [settings.save()]: a transaction of its own. *)
Definition UserSettings_save (w : World) (settings : UserSettings.t)
  : M UserSettings.t :=
  fun st =>
    match settings_save_rejects w (store st) settings with
    | Some message =>
        (Thrown (QueryFailedError message),
         {| store := store st; draws := draws st; saves := S (saves st) |})
    | None =>
        (Normal settings,
         {| store :=
              {| users := users (store st);
                 user_settings := user_settings (store st) ++ [settings] |};
            draws := draws st;
            saves := S (saves st) |})
    end.

(** [await Promise.all([a, b])]: both operations have been started when
    the array is built, so both run to their end whatever the other does;
    the await throws if one of them rejected. *)
Definition Promise_all2 {A B} (a : M A) (b : M B) : M (A * B) :=
  fun st =>
    let (ra, st1) := a st in
    let (rb, st2) := b st1 in
    (match ra, rb with
     | Normal x, Normal y => Normal (x, y)
     | Thrown e, _ => Thrown e
     | Returned r, _ => Returned r
     | Normal _, Thrown e => Thrown e
     | Normal _, Returned r => Returned r
     end, st2).

(** The commits of other requests that land in the window between the
    handler's last read and its save. *)
Definition others_commit (w : World) : M unit :=
  fun st =>
    (Normal tt,
     {| store :=
          {| users := users (store st) ++ concurrent_commits w;
             user_settings :=
               user_settings (store st)
               ++ map User.settings (concurrent_commits w) |};
        draws := draws st;
        saves := saves st |}).

(** [Math.randomIntBetween(1, 9999)]: the next draw. *)
Definition randomIntBetween_1_9999 (w : World) : M Z :=
  fun st =>
    (Normal (random w (draws st)),
     {| store := store st; draws := S (draws st); saves := saves st |}).

(** ** The registration paths *)

Section Registration.

(** [trimSpecial] of the util package: removes the special characters of a
    user name. *)
Variable trimSpecial : string -> string.

(** The address grammar, see [adjustEmail]. *)
Variable EMAIL_REGEX : string -> option RegExpMatchArray.

(** [d.setFullYear(d.getFullYear() - years)] on the date [d]. *)
Variable years_before : Z -> Z -> Z.

(** The call [adjustEmail(email)] of the handler, whose argument is the
    body field as it came: on an absent e-mail, [email.match] is a property
    access on [undefined]. *)
Definition adjustEmail_call (email : option string) : Exn + option string :=
  match email with
  | None => inl TypeError
  | Some e => adjustEmail EMAIL_REGEX e
  end.

(** The discriminator loop, lines 165 to 169: [remaining] is [5 - tries];
    the result is the last candidate and the last answer of the lookup. *)
Fixpoint discriminator_loop (w : World) (adjusted_username : string)
    (remaining : nat) (discriminator : string) (exists_ : option User.t)
  : M (string * option User.t) :=
  match remaining with
  | O => ret (discriminator, exists_)
  | S remaining' =>
      n <- randomIntBetween_1_9999 w ;;
      let discriminator := JS.padStart (JS.toString n) 4 "0" in
      exists_ <- User_findOne_tag discriminator adjusted_username ;;
      if negb (isSome exists_) then ret (discriminator, exists_)
      else discriminator_loop w adjusted_username remaining' discriminator exists_
  end.

(** The account built by the handler, lines 184 to 252. *)
Definition route_user (w : World) (req : Request)
    (adjusted_username discriminator : string)
    (adjusted_email : option string) (adjusted_password : string) : User.t :=
  {| User.id := snowflake w;
     User.created_at := now w;
     User.username := adjusted_username;
     User.discriminator := discriminator;
     User.avatar := None;
     User.accent_color := None;
     User.banner := None;
     User.phone := None;
     User.desktop := false;
     User.mobile := false;
     User.premium := true;
     User.premium_type := 2;
     User.bot := false;
     User.bio := EmptyString;
     User.system := false;
     User.nsfw_allowed := true;
     User.mfa_enabled := false;
     User.premium_since := None;
     User.verified := false;
     User.disabled := false;
     User.deleted := false;
     User.email := adjusted_email;
     User.flags := "0";
     User.public_flags := 0;
     User.rights := "874722686401536";
     User.data_hash := Some adjusted_password;
     User.data_valid_tokens_since := now w;
     User.fingerprints := [];
     User.settings := {| UserSettings.locale := language req |};
     User.extended_settings := "{}" |}.

(** Lines 45 to 50: the origin check. *)
Definition proxy_check (cfg : Config.t) (w : World) : M unit :=
  throw_if (Config.blockProxies cfg && ip_is_proxy w)
    (HTTPError "Your IP is blocked from registration").

(** Lines 90 to 109: the e-mail policy. *)
Definition email_check (cfg : Config.t) (body : Body.t)
    (adjusted_email : option string) : M unit :=
  if JS.truthy_opt (Body.email body) then
    match adjusted_email with
    | Some adjusted =>
        throw_if (negb (JS.truthy adjusted))
          (FieldErrors "email" "INVALID_EMAIL") ;;
        exists_ <- User_findOne_email adjusted ;;
        throw_if (isSome exists_)
          (FieldErrors "email" "EMAIL_ALREADY_REGISTERED")
    | None => throw (FieldErrors "email" "INVALID_EMAIL")
    end
  else
    throw_if (Config.email_necessary cfg)
      (FieldErrors "email" "BASE_TYPE_REQUIRED").

(** Lines 111 to 128: the age policy.  A missing date compares false. *)
Definition date_of_birth_check (cfg : Config.t) (body : Body.t) (w : World)
  : M unit :=
  if Config.dateOfBirth_necessary cfg && negb (isSome (Body.date_of_birth body))
  then throw (FieldErrors "date_of_birth" "BASE_TYPE_REQUIRED")
  else if negb (Config.dateOfBirth_minimum cfg =? 0) then
    let minimum := years_before (now w) (Config.dateOfBirth_minimum cfg) in
    throw_if (match Body.date_of_birth body with
              | Some d => minimum <? d
              | None => false
              end)
      (FieldErrors "date_of_birth" "DATE_OF_BIRTH_UNDERAGE")
  else ret tt.

(** Lines 130 to 142: the multi-account policy. *)
Definition fingerprint_check (cfg : Config.t) (body : Body.t) (w : World)
  : M unit :=
  if negb (Config.allowMultipleAccounts cfg) then
    exists_ <- User_findOne_fingerprint w (Body.fingerprint body) ;;
    throw_if (isSome exists_)
      (FieldErrors "email" "EMAIL_ALREADY_REGISTERED")
  else ret tt.

(** Lines 144 to 155: the captcha policy, which answers with a challenge
    instead of throwing. *)
Definition captcha_check (cfg : Config.t) (body : Body.t) : M unit :=
  if Config.requireCaptcha cfg && Config.captcha_enabled cfg then
    if negb (JS.truthy_opt (Body.captcha_key body))
    then respond (Captcha_required (Config.captcha_sitekey cfg)
                    (Config.captcha_service cfg))
    else ret tt
  else ret tt.

(** Lines 45 to 155 of the handler, in the order of the source: every
    check made before the password is hashed.  The value is
    [adjusted_email]. *)
Definition fraud_checks (cfg : Config.t) (body : Body.t) (w : World)
  : M (option string) :=
  proxy_check cfg w ;;
  (* line 58 *)
  adjusted_email <- lift (adjustEmail_call (Body.email body)) ;;
  (* lines 70-74 *)
  throw_if (negb (Config.allowNewRegistration cfg))
    (FieldErrors "email" "REGISTRATION_DISABLED") ;;
  (* lines 77-81 *)
  throw_if (negb (Body.consent body))
    (FieldErrors "consent" "CONSENT_REQUIRED") ;;
  (* lines 84-88 *)
  throw_if (Config.requireInvite cfg && negb (JS.truthy_opt (Body.invite body)))
    (FieldErrors "email" "INVITE_ONLY") ;;
  email_check cfg body adjusted_email ;;
  date_of_birth_check cfg body w ;;
  fingerprint_check cfg body w ;;
  captcha_check cfg body ;;
  ret adjusted_email.

(** The handler of [POST /auth/register]. *)
Definition register_route (cfg : Config.t) (req : Request) (body : Body.t)
    (w : World) : M Response :=
  adjusted_email <- fraud_checks cfg body w ;;
  (* line 64 *)
  let adjusted_username := trimSpecial (Body.username body) in
  (* line 158 *)
  let adjusted_password := bcrypt_hash w (Body.password body) in
  (* lines 160-178 *)
  found <- discriminator_loop w adjusted_username 5 EmptyString None ;;
  let (discriminator, exists_) := found in
  throw_if (isSome exists_)
    (FieldErrors "username" "USERNAME_TOO_MANY_USERS") ;;
  (* lines 184-252 *)
  others_commit w ;;
  user <- User_save w
            (route_user w req adjusted_username discriminator
               adjusted_email adjusted_password) ;;
  (* line 254 *)
  ret (Json_token (token_of w (User.id user))).

(** The language of the settings row, lines 271 and 272. *)
Definition register_language (input : RegisterInput.t) : string :=
  let req_language :=
    match RegisterInput.req input with
    | Some r => language r
    | None => None
    end in
  if JS.strict_eq req_language "en" then "en-US"
  else match req_language with
       | Some l => if JS.truthy l then l else "en-US"
       | None => "en-US"
       end.

(** The account built by [User.register], lines 278 to 291; a column that
    is not given takes the default of its declaration in the entity. *)
Definition register_user (input : RegisterInput.t) (w : World) : User.t :=
  let username := trimSpecial (RegisterInput.username input) in
  let settings := UserSettings.create (Some (register_language input)) in
  {| User.id := match RegisterInput.id input with
                | Some i => if JS.truthy i then i else snowflake w
                | None => snowflake w
                end;
     User.created_at := now w;
     User.username := username;
     User.discriminator := "0000";
     User.avatar := None;
     User.accent_color := None;
     User.banner := None;
     User.phone := None;
     User.desktop := true;
     User.mobile := true;
     User.premium := true;
     User.premium_type := 2;
     User.bot := false;
     User.bio := EmptyString;
     User.system := false;
     User.nsfw_allowed := true;
     User.mfa_enabled := false;
     User.premium_since := Some (now w);
     User.verified := true;
     User.disabled := false;
     User.deleted := false;
     User.email := Some username;
     User.flags := "0";
     User.public_flags := 0;
     User.rights := "874722686401536";
     User.data_hash := RegisterInput.password input;
     User.data_valid_tokens_since := now w;
     User.fingerprints := [];
     User.settings := settings;
     User.extended_settings := "{}" |}.

(** The static method [User.register].  Only [username], [password], [id]
    and [req] are bound by the parameter pattern.  The auto-join task that
    [setImmediate] schedules runs after the method has returned and takes
    no part in its result. *)
Definition User_register (input : RegisterInput.t) (w : World) : M User.t :=
  let user := register_user input w in
  let settings := User.settings user in
  Promise_all2 (User_save w user) (UserSettings_save w settings) ;;
  ret user.

End Registration.

(** ** Properties stated by the specification *)

(** A discriminator of a registered account as the specification wants it:
    four decimal digits, not all zero. *)
Definition valid_discriminator (d : string) : bool :=
  (String.length d =? 4)%nat && JS.all_chars JS.is_digit d
  && negb (String.eqb d "0000").

(** An error that names a field of the request. *)
Definition field_scoped (e : Exn) : bool :=
  match e with
  | FieldErrors _ _ => true
  | _ => false
  end.

(** The local part as the specification canonicalises it: what precedes
    the first plus sign, without its dots. *)
Fixpoint before_first_plus (s : string) : string :=
  match s with
  | EmptyString => EmptyString
  | String c r => if Ascii.eqb c "+" then EmptyString
                  else String c (before_first_plus r)
  end.

Fixpoint remove_dots (s : string) : string :=
  match s with
  | EmptyString => EmptyString
  | String c r => if Ascii.eqb c "." then remove_dots r
                  else String c (remove_dots r)
  end.

Definition spec_canonical_local (local : string) : string :=
  remove_dots (before_first_plus local).

(** Two local parts that differ only by dots and by a plus suffix. *)
Definition dot_plus_variants (u1 u2 : string) : Prop :=
  spec_canonical_local u1 = spec_canonical_local u2.

(** No line terminator occurs in the string. *)
Definition single_line (s : string) : bool :=
  JS.all_chars (fun c => negb (JS.is_line_terminator c)) s.

(** [email] matches the grammar with this local part and this domain. *)
Definition parses_as (EMAIL_REGEX : string -> option RegExpMatchArray)
    (email local domain : string) : Prop :=
  exists parts, EMAIL_REGEX email = Some parts
                /\ index parts 1 = Some local
                /\ index parts 5 = Some domain.

Definition recognized_domain (domain : string) : bool :=
  String.eqb domain "gmail.com" || String.eqb domain "googlemail.com".

(** Some account, deleted or not, holds this e-mail. *)
Definition email_held (rows : list User.t) (email : string) : Prop :=
  exists u, In u rows /\ User.email u = Some email.

(** An account that is not soft-deleted holds this e-mail. *)
Definition email_held_active (rows : list User.t) (email : string) : Prop :=
  exists u, In u rows /\ User.email u = Some email /\ User.deleted u = false.

(** ** Notions used by the proofs *)

(** The candidate built from a draw, as the loop computes it. *)
Definition pad4 (n : Z) : string := JS.padStart (JS.toString n) 4 "0".

Definition pad4_ok (n : Z) : bool :=
  valid_discriminator (pad4 n) && (JS.decimal_value (pad4 n) =? n).

(** [p] holds of [n], [n + 1], ..., [n + count - 1]. *)
Fixpoint holds_from (p : Z -> bool) (n : Z) (count : nat) : bool :=
  match count with
  | O => true
  | S count' => p n && holds_from p (n + 1) count'
  end.

(** A computation that only reads: it leaves the state as it found it. *)
Definition read_only {A} (m : M A) : Prop :=
  forall st, snd (m st) = st.

(** The lookup of the discriminator loop as a function of the table. *)
Definition lookup_tag (rows : list User.t) (discriminator username : string)
  : option User.t :=
  find (fun u => String.eqb (User.discriminator u) discriminator
                 && String.eqb (User.username u) username) rows.

(** The state after [n] more draws. *)
Definition drawn (st : St) (n : nat) : St :=
  {| store := store st; draws := (draws st + n)%nat; saves := saves st |}.

(** The store once the commits of the other requests have landed. *)
Definition with_others (w : World) (s : Store) : Store :=
  {| users := users s ++ concurrent_commits w;
     user_settings := user_settings s ++ map User.settings (concurrent_commits w) |}.

(** The store after a committed save of [user]. *)
Definition with_user (s : Store) (user : User.t) : Store :=
  {| users := users s ++ [user];
     user_settings := user_settings s ++ [User.settings user] |}.

Section RouteRuns.

Variable trimSpecial : string -> string.
Variable EMAIL_REGEX : string -> option RegExpMatchArray.
Variable years_before : Z -> Z -> Z.

Variable cfg : Config.t.
Variable req : Request.
Variable body : Body.t.
Variable w : World.
Variable st : St.

(** The candidate of the [k]-th pass of the loop, counted from 0. *)
Definition candidate (k : nat) : string :=
  pad4 (random w (draws st + k)%nat).

Definition taken (k : nat) : bool :=
  isSome (lookup_tag (users (store st)) (candidate k)
            (trimSpecial (Body.username body))).

(** The account the handler saves when the loop stopped after [n] passes. *)
Definition candidate_user (adjusted_email : option string) (n : nat) : User.t :=
  route_user w req (trimSpecial (Body.username body)) (candidate (n - 1))
    adjusted_email (bcrypt_hash w (Body.password body)).

(** The ways a run of the handler can end. *)
Inductive RouteRun : Completion Response * St -> Prop :=
| Run_rejected (e : Exn) :
    fraud_checks EMAIL_REGEX years_before cfg body w st = (Thrown e, st) ->
    RouteRun (Thrown e, st)
| Run_challenged (r : Response) :
    fraud_checks EMAIL_REGEX years_before cfg body w st = (Returned r, st) ->
    RouteRun (Returned r, st)
| Run_exhausted (adj : option string) :
    fraud_checks EMAIL_REGEX years_before cfg body w st = (Normal adj, st) ->
    (forall k, (k < 5)%nat -> taken k = true) ->
    RouteRun (Thrown (FieldErrors "username" "USERNAME_TOO_MANY_USERS"),
              drawn st 5)
| Run_save_rejected (adj : option string) (n : nat) (message : string) :
    fraud_checks EMAIL_REGEX years_before cfg body w st = (Normal adj, st) ->
    (1 <= n <= 5)%nat ->
    (forall k, (k < n - 1)%nat -> taken k = true) ->
    taken (n - 1) = false ->
    user_save_rejects w (with_others w (store st)) (candidate_user adj n)
    = Some message ->
    RouteRun (Thrown (QueryFailedError message),
              {| store := with_others w (store st);
                 draws := (draws st + n)%nat;
                 saves := S (saves st) |})
| Run_registered (adj : option string) (n : nat) :
    fraud_checks EMAIL_REGEX years_before cfg body w st = (Normal adj, st) ->
    (1 <= n <= 5)%nat ->
    (forall k, (k < n - 1)%nat -> taken k = true) ->
    taken (n - 1) = false ->
    user_save_rejects w (with_others w (store st)) (candidate_user adj n)
    = None ->
    RouteRun (Normal (Json_token (token_of w (User.id (candidate_user adj n)))),
              {| store := with_user (with_others w (store st))
                            (candidate_user adj n);
                 draws := (draws st + n)%nat;
                 saves := S (saves st) |}).

End RouteRuns.

(** The field errors that the checks of the handler can throw. *)
Definition check_errors : list Exn :=
  [ FieldErrors "email" "REGISTRATION_DISABLED";
    FieldErrors "consent" "CONSENT_REQUIRED";
    FieldErrors "email" "INVITE_ONLY";
    FieldErrors "email" "INVALID_EMAIL";
    FieldErrors "email" "EMAIL_ALREADY_REGISTERED";
    FieldErrors "email" "BASE_TYPE_REQUIRED";
    FieldErrors "date_of_birth" "BASE_TYPE_REQUIRED";
    FieldErrors "date_of_birth" "DATE_OF_BIRTH_UNDERAGE" ].

(** The input of [User.register] with another e-mail. *)
Definition with_email (e : option string) (input : RegisterInput.t)
  : RegisterInput.t :=
  {| RegisterInput.username := RegisterInput.username input;
     RegisterInput.password := RegisterInput.password input;
     RegisterInput.email := e;
     RegisterInput.date_of_birth := RegisterInput.date_of_birth input;
     RegisterInput.id := RegisterInput.id input;
     RegisterInput.req := RegisterInput.req input |}.

(** ** Sample collaborators and requests *)

Module Sample.

(** Modelled from the spec: [trimSpecial] of the util package, which is
    not among the sources.  The spec says that it strips control and
    format characters such as backspace and newline without altering
    visible characters; below 256 these are the two control blocks. *)
Fixpoint trimSpecial (s : string) : string :=
  match s with
  | EmptyString => EmptyString
  | String c r =>
      let n := nat_of_ascii c in
      if ((n <? 32) || ((127 <=? n) && (n <? 160)))%nat then trimSpecial r
      else String c (trimSpecial r)
  end.

(** A stand-in for the calendar arithmetic of [Date.setFullYear], with
    years of 365 days. *)
Definition years_before (date years : Z) : Z :=
  date - years * 365 * 86400000.

Definition open_config : Config.t :=
  {| Config.blockProxies := false;
     Config.allowNewRegistration := true;
     Config.requireInvite := false;
     Config.email_necessary := false;
     Config.dateOfBirth_necessary := false;
     Config.dateOfBirth_minimum := 0;
     Config.allowMultipleAccounts := true;
     Config.requireCaptcha := false;
     Config.captcha_enabled := false;
     Config.captcha_sitekey := None;
     Config.captcha_service := None |}.

(** Registration closed, proxies blocked. *)
Definition closed_config : Config.t :=
  {| Config.blockProxies := true;
     Config.allowNewRegistration := false;
     Config.requireInvite := false;
     Config.email_necessary := false;
     Config.dateOfBirth_necessary := false;
     Config.dateOfBirth_minimum := 0;
     Config.allowMultipleAccounts := true;
     Config.requireCaptcha := false;
     Config.captcha_enabled := false;
     Config.captcha_sitekey := None;
     Config.captcha_service := None |}.

(** One account per fingerprint. *)
Definition single_account_config : Config.t :=
  {| Config.blockProxies := false;
     Config.allowNewRegistration := true;
     Config.requireInvite := false;
     Config.email_necessary := false;
     Config.dateOfBirth_necessary := false;
     Config.dateOfBirth_minimum := 0;
     Config.allowMultipleAccounts := false;
     Config.requireCaptcha := false;
     Config.captcha_enabled := false;
     Config.captcha_sitekey := None;
     Config.captcha_service := None |}.

Definition alice : Body.t :=
  {| Body.email := Some "alice@example.org";
     Body.username := "alice";
     Body.password := "longenough1";
     Body.consent := true;
     Body.fingerprint := Some "805826570869932034.wR8vi8lGlFBJerErO9LG5NViJFw";
     Body.invite := None;
     Body.date_of_birth := None;
     Body.gift_code_sku_id := None;
     Body.captcha_key := None |}.

Definition request : Request := {| language := Some "en" |}.

Definition alice_input : RegisterInput.t :=
  {| RegisterInput.username := "alice";
     RegisterInput.password := Some "$2b$12$N9qo8uLOickgx2ZMRZoMye";
     RegisterInput.email := Some "alice@example.org";
     RegisterInput.date_of_birth := None;
     RegisterInput.id := None;
     RegisterInput.req := Some request |}.

Definition fingerprint_lookup (rows : list User.t) (fp : option string)
  : option User.t :=
  match fp with
  | Some f => find (fun u => existsb (String.eqb f) (User.fingerprints u)) rows
  | None => None
  end.

(** An engine that enforces uniqueness of user name and discriminator. *)
Definition unique_tag (s : Store) (u : User.t) : option string :=
  if existsb (fun r => String.eqb (User.username r) (User.username u)
                       && String.eqb (User.discriminator r) (User.discriminator u))
       (users s)
  then Some "UNIQUE constraint failed: users.username, users.discriminator"
  else None.

Definition quiet : World :=
  {| ip_is_proxy := false;
     now := 1700000000000;
     snowflake := "1041712969216000000";
     random := fun k => 1 + (1233 + Z.of_nat k) mod 9999;
     bcrypt_hash := fun p => "$2b$12$" ++ p;
     token_of := fun i => "token." ++ i;
     fingerprint_query := fingerprint_lookup;
     concurrent_commits := [];
     user_save_rejects := unique_tag;
     settings_save_rejects := fun _ _ => None |}.

Definition behind_proxy : World :=
  {| ip_is_proxy := true;
     now := now quiet;
     snowflake := snowflake quiet;
     random := random quiet;
     bcrypt_hash := bcrypt_hash quiet;
     token_of := token_of quiet;
     fingerprint_query := fingerprint_lookup;
     concurrent_commits := [];
     user_save_rejects := unique_tag;
     settings_save_rejects := fun _ _ => None |}.

(** The engine refuses the account row and accepts the settings row. *)
Definition account_save_fails : World :=
  {| ip_is_proxy := false;
     now := now quiet;
     snowflake := snowflake quiet;
     random := random quiet;
     bcrypt_hash := bcrypt_hash quiet;
     token_of := token_of quiet;
     fingerprint_query := fingerprint_lookup;
     concurrent_commits := [];
     user_save_rejects := fun _ _ => Some "connection terminated unexpectedly";
     settings_save_rejects := fun _ _ => None |}.

(** A row of the accounts table. *)
Definition account (name discriminator : string) (email : option string)
    (deleted : bool) (fingerprints : list string) : User.t :=
  {| User.id := "1041712969215999999";
     User.created_at := now quiet;
     User.username := name;
     User.discriminator := discriminator;
     User.avatar := None;
     User.accent_color := None;
     User.banner := None;
     User.phone := None;
     User.desktop := false;
     User.mobile := false;
     User.premium := true;
     User.premium_type := 2;
     User.bot := false;
     User.bio := EmptyString;
     User.system := false;
     User.nsfw_allowed := true;
     User.mfa_enabled := false;
     User.premium_since := None;
     User.verified := false;
     User.disabled := false;
     User.deleted := deleted;
     User.email := email;
     User.flags := "0";
     User.public_flags := 0;
     User.rights := "874722686401536";
     User.data_hash := None;
     User.data_valid_tokens_since := now quiet;
     User.fingerprints := fingerprints;
     User.settings := {| UserSettings.locale := Some "en" |};
     User.extended_settings := "{}" |}.

(** Another registration of the same user name that draws the same
    discriminator and commits first. *)
Definition rival : User.t :=
  account "alice" "1234" (Some "rival@example.org") false [].

(** A soft-deleted account that held the address of [alice]. *)
Definition former : User.t :=
  account "alice-old" "0042" (Some "alice@example.org") true [].

(** An account registered from the device of [alice]. *)
Definition same_device : User.t :=
  account "bob" "0007" (Some "bob@example.org") false
    ["805826570869932034.wR8vi8lGlFBJerErO9LG5NViJFw"].

Definition late_collision : World :=
  {| ip_is_proxy := false;
     now := now quiet;
     snowflake := snowflake quiet;
     random := random quiet;
     bcrypt_hash := bcrypt_hash quiet;
     token_of := token_of quiet;
     fingerprint_query := fingerprint_lookup;
     concurrent_commits := [rival];
     user_save_rejects := unique_tag;
     settings_save_rejects := fun _ _ => None |}.

(** An account of the given name and discriminator. *)
Definition tagged (name : string) (n : Z) : User.t :=
  account name (JS.padStart (JS.toString n) 4 "0") None false [].

(** The numbers [n], [n + 1], ..., [n + count - 1]. *)
Fixpoint numbers_from (n : Z) (count : nat) : list Z :=
  match count with
  | O => []
  | S count' => n :: numbers_from (n + 1) count'
  end.

(** All 9999 discriminators of one user name are taken. *)
Definition saturated_store (name : string) : Store :=
  {| users := map (tagged name) (numbers_from 1 (Z.to_nat 9999));
     user_settings :=
       map (fun n => User.settings (tagged name n))
         (numbers_from 1 (Z.to_nat 9999)) |}.

Definition empty_store : Store := {| users := []; user_settings := [] |}.

Definition store_of (rows : list User.t) : Store :=
  {| users := rows; user_settings := map User.settings rows |}.

Definition start (s : Store) : St := {| store := s; draws := 0; saves := 0 |}.

End Sample.

(** ** Variations of a configuration and of a request *)


(** The configuration with the captcha requirement switched off. *)
Definition without_captcha (cfg : Config.t) : Config.t :=
  {| Config.blockProxies := Config.blockProxies cfg;
     Config.allowNewRegistration := Config.allowNewRegistration cfg;
     Config.requireInvite := Config.requireInvite cfg;
     Config.email_necessary := Config.email_necessary cfg;
     Config.dateOfBirth_necessary := Config.dateOfBirth_necessary cfg;
     Config.dateOfBirth_minimum := Config.dateOfBirth_minimum cfg;
     Config.allowMultipleAccounts := Config.allowMultipleAccounts cfg;
     Config.requireCaptcha := false;
     Config.captcha_enabled := Config.captcha_enabled cfg;
     Config.captcha_sitekey := Config.captcha_sitekey cfg;
     Config.captcha_service := Config.captcha_service cfg |}.

(** Two requests that the handler cannot tell apart: they agree on every
    field but the gift code, and their invites and captcha keys are both
    present or both missing. *)
Definition same_for_handler (b b' : Body.t) : Prop :=
  Body.email b = Body.email b'
  /\ Body.username b = Body.username b'
  /\ Body.password b = Body.password b'
  /\ Body.consent b = Body.consent b'
  /\ Body.fingerprint b = Body.fingerprint b'
  /\ Body.date_of_birth b = Body.date_of_birth b'
  /\ JS.truthy_opt (Body.invite b) = JS.truthy_opt (Body.invite b')
  /\ JS.truthy_opt (Body.captcha_key b) = JS.truthy_opt (Body.captcha_key b').

(** Some row of the table carries this user name and discriminator. *)
Definition tag_held (rows : list User.t) (username discriminator : string)
  : Prop :=
  exists r, In r rows
            /\ User.username r = username
            /\ User.discriminator r = discriminator.

Module Cases.

(** The request of [Sample.alice] without e-mail. *)
Definition anonymous : Body.t :=
  {| Body.email := None;
     Body.username := "alice";
     Body.password := "longenough1";
     Body.consent := true;
     Body.fingerprint := None;
     Body.invite := None;
     Body.date_of_birth := None;
     Body.gift_code_sku_id := None;
     Body.captcha_key := None |}.

(** The request of [Sample.alice] with an invite, a captcha key and a gift
    code. *)
Definition alice_with_extras : Body.t :=
  {| Body.email := Body.email Sample.alice;
     Body.username := Body.username Sample.alice;
     Body.password := Body.password Sample.alice;
     Body.consent := Body.consent Sample.alice;
     Body.fingerprint := Body.fingerprint Sample.alice;
     Body.invite := Some "Qx7pR2";
     Body.date_of_birth := Body.date_of_birth Sample.alice;
     Body.gift_code_sku_id := Some "521842865731534868";
     Body.captcha_key := Some "10000000-aaaa-bbbb-cccc-000000000001" |}.

(** The same with another invite and another captcha key. *)
Definition alice_with_other_extras : Body.t :=
  {| Body.email := Body.email Sample.alice;
     Body.username := Body.username Sample.alice;
     Body.password := Body.password Sample.alice;
     Body.consent := Body.consent Sample.alice;
     Body.fingerprint := Body.fingerprint Sample.alice;
     Body.invite := Some "not-an-invite";
     Body.date_of_birth := Body.date_of_birth Sample.alice;
     Body.gift_code_sku_id := None;
     Body.captcha_key := Some "anything" |}.

(** Captcha and invite required, a minimum age of 13 years. *)
Definition strict_config : Config.t :=
  {| Config.blockProxies := false;
     Config.allowNewRegistration := true;
     Config.requireInvite := true;
     Config.email_necessary := true;
     Config.dateOfBirth_necessary := false;
     Config.dateOfBirth_minimum := 13;
     Config.allowMultipleAccounts := true;
     Config.requireCaptcha := true;
     Config.captcha_enabled := true;
     Config.captcha_sitekey := Some "b4a5c1d2-sitekey";
     Config.captcha_service := Some "hcaptcha" |}.

(** The request of [Sample.alice] with an invite and no captcha key. *)
Definition alice_invited : Body.t :=
  {| Body.email := Body.email Sample.alice;
     Body.username := Body.username Sample.alice;
     Body.password := Body.password Sample.alice;
     Body.consent := Body.consent Sample.alice;
     Body.fingerprint := Body.fingerprint Sample.alice;
     Body.invite := Some "Qx7pR2";
     Body.date_of_birth := None;
     Body.gift_code_sku_id := None;
     Body.captcha_key := None |}.

(** The first two candidates of [Sample.quiet] are taken. *)
Definition two_taken : Store :=
  Sample.store_of [Sample.account "alice" "1234" None false [];
                   Sample.account "alice" "1235" None true []].

End Cases.

(** Neither a dot nor a plus sign. *)
Definition plain_char (c : ascii) : bool :=
  negb (Ascii.eqb c "." || Ascii.eqb c "+").

(** Two calls of [User.register], one after the other. *)
Definition register_twice (trimSpecial : string -> string)
    (first second : RegisterInput.t) (w1 w2 : World)
  : M (User.t * User.t) :=
  u1 <- User_register trimSpecial first w1 ;;
  u2 <- User_register trimSpecial second w2 ;;
  ret (u1, u2).

(** Two requests to the route handler, one after the other. *)
Definition route_twice (trimSpecial : string -> string)
    (EMAIL_REGEX : string -> option RegExpMatchArray)
    (years_before : Z -> Z -> Z) (cfg : Config.t) (req : Request)
    (first second : Body.t) (w1 w2 : World) : M (Response * Response) :=
  r1 <- register_route trimSpecial EMAIL_REGEX years_before cfg req first w1 ;;
  r2 <- register_route trimSpecial EMAIL_REGEX years_before cfg req second w2 ;;
  ret (r1, r2).

Module Cases2.

(** An engine that accepts every save. *)
Definition permissive : World :=
  {| ip_is_proxy := false;
     now := now Sample.quiet;
     snowflake := "1041712969216000777";
     random := random Sample.quiet;
     bcrypt_hash := bcrypt_hash Sample.quiet;
     token_of := token_of Sample.quiet;
     fingerprint_query := Sample.fingerprint_lookup;
     concurrent_commits := [];
     user_save_rejects := fun _ _ => None;
     settings_save_rejects := fun _ _ => None |}.

(** A second registration of the user name of [Sample.alice_input], with
    a trailing newline. *)
Definition alice_again : RegisterInput.t :=
  {| RegisterInput.username := String "a" (String "l" (String "i" (String "c"
                                 (String "e" (String "010" EmptyString)))));
     RegisterInput.password := None;
     RegisterInput.email := None;
     RegisterInput.date_of_birth := None;
     RegisterInput.id := Some "1041712969216000778";
     RegisterInput.req := None |}.

(** The mailbox of alice at gmail.com, and another spelling of it. *)
Definition alice_gmail : Body.t :=
  {| Body.email := Some "alice@gmail.com";
     Body.username := "alice";
     Body.password := "longenough1";
     Body.consent := true;
     Body.fingerprint := None;
     Body.invite := None;
     Body.date_of_birth := None;
     Body.gift_code_sku_id := None;
     Body.captcha_key := None |}.

Definition alice_gmail_variant : Body.t :=
  {| Body.email := Some "a.li.ce+second@googlemail.com";
     Body.username := "alice2";
     Body.password := "longenough2";
     Body.consent := true;
     Body.fingerprint := None;
     Body.invite := None;
     Body.date_of_birth := None;
     Body.gift_code_sku_id := None;
     Body.captcha_key := None |}.

End Cases2.

(** ** Objects, enumerations and the projections of a user *)

Module JSObject.

(** A property key: an array index or any other name.  Names are never
    the decimal form of an index. *)
Inductive PropertyKey : Type :=
| Index (n : nat)
| Named (s : string).

Definition key_eqb (k k' : PropertyKey) : bool :=
  match k, k' with
  | Index n, Index n' => Nat.eqb n n'
  | Named s, Named s' => String.eqb s s'
  | _, _ => false
  end.

(** An object: its own properties in the order of their creation. *)
Definition t (V : Type) : Type := list (PropertyKey * V).

(** [o[k] = v]: an existing property keeps its place. *)
Fixpoint set {V} (k : PropertyKey) (v : V) (o : t V) : t V :=
  match o with
  | [] => [(k, v)]
  | (k', v') :: rest =>
      if key_eqb k k' then (k, v) :: rest else (k', v') :: set k v rest
  end.

(** [o[k]], nothing when [o] has no such property. *)
Fixpoint get {V} (o : t V) (k : PropertyKey) : option V :=
  match o with
  | [] => None
  | (k', v) :: rest => if key_eqb k k' then Some v else get rest k
  end.

(** Insertion of an index property among index properties in ascending
    order. *)
Fixpoint insert_index {V} (n : nat) (v : V) (l : list (nat * V))
  : list (nat * V) :=
  match l with
  | [] => [(n, v)]
  | (m, u) :: rest =>
      if (n <=? m)%nat then (n, v) :: l else (m, u) :: insert_index n v rest
  end.

Fixpoint index_properties {V} (o : t V) : list (nat * V) :=
  match o with
  | [] => []
  | (Index n, v) :: rest => insert_index n v (index_properties rest)
  | (Named _, _) :: rest => index_properties rest
  end.

Fixpoint named_properties {V} (o : t V) : list (string * V) :=
  match o with
  | [] => []
  | (Index _, _) :: rest => named_properties rest
  | (Named s, v) :: rest => (s, v) :: named_properties rest
  end.

(** [Object.values(o)]: the values of the index properties in ascending
    order of index, then those of the other properties in the order of
    their creation. *)
Definition values {V} (o : t V) : list V :=
  (map snd (index_properties o) ++ map snd (named_properties o))%list.

End JSObject.

(** A value of the object that a numeric [enum] compiles to. *)
Inductive EnumValue : Type :=
| MemberName (name : string)
| Ordinal (n : nat).

(** The object of [enum E { m0, m1, ... }]: for each member in turn,
    [E[E["m"] = i] = "m"] sets the ordinal under the name and then the
    name under the ordinal. *)
Fixpoint enum_from (i : nat) (members : list string)
    (o : JSObject.t EnumValue) : JSObject.t EnumValue :=
  match members with
  | [] => o
  | m :: rest =>
      enum_from (S i) rest
        (JSObject.set (JSObject.Index i) (MemberName m)
           (JSObject.set (JSObject.Named m) (Ordinal i) o))
  end.

Definition enum_object (members : list string) : JSObject.t EnumValue :=
  enum_from 0 members [].

(** [Object.values(E).filter((x) => typeof x === "string")]. *)
Fixpoint strings_of (vs : list EnumValue) : list string :=
  match vs with
  | [] => []
  | MemberName s :: rest => s :: strings_of rest
  | Ordinal _ :: rest => strings_of rest
  end.

Definition enum_keys (members : list string) : list string :=
  strings_of (JSObject.values (enum_object members)).

Definition PublicUserEnum : list string :=
  [ "username"; "discriminator"; "id"; "public_flags"; "avatar";
    "accent_color"; "banner"; "bio"; "bot"; "premium_since"; "premium_type";
    "theme_colors"; "pronouns" ].

Definition PrivateUserEnum : list string :=
  [ "flags"; "mfa_enabled"; "email"; "phone"; "verified"; "nsfw_allowed";
    "premium"; "premium_type"; "purchased_flags"; "premium_usage_flags";
    "disabled" ].

Definition PublicUserProjection : list string := enum_keys PublicUserEnum.

Definition PrivateUserProjection : list string :=
  (PublicUserProjection ++ enum_keys PrivateUserEnum)%list.

(** [toPublicUser()]: [this] is given by the value of each of its
    properties; the result takes, for each key of the projection in turn,
    the value that [this] has under it. *)
Definition toPublicUser {V} (this : string -> V) : JSObject.t V :=
  fold_left (fun user x => JSObject.set (JSObject.Named x) (this x) user)
    PublicUserProjection [].

(** The own property names of an object with named properties. *)
Definition property_names {V} (o : JSObject.t V) : list string :=
  map fst (JSObject.named_properties o).

(** The properties of an enumeration object, member after member. *)
Fixpoint enum_entries (i : nat) (members : list string)
  : JSObject.t EnumValue :=
  match members with
  | [] => []
  | m :: rest =>
      (JSObject.Named m, Ordinal i) :: (JSObject.Index i, MemberName m)
      :: enum_entries (S i) rest
  end.

(** ** Reading a public user *)

Module FindOneOptions.

(** The options of a lookup as far as [getPublicUser] touches them: a
    condition, given by the rows it accepts, and a list of columns.  A
    field is [None] when the object has no such property. *)
Record t := {
  where_ : option (User.t -> bool);
  select : option (list string)
}.

End FindOneOptions.

(** What [findOneOrFail] gives: the first row that meets the condition,
    with the columns that were asked for, or the error of a lookup that
    finds nothing. *)
Inductive FindResult : Type :=
| Entity (row : User.t) (columns : list string)
| EntityNotFoundError.

(** The static method [getPublicUser].  The options object is built from
    [where: { id: user_id }], then the properties of [opts], which replace
    those written before them, then [select], which replaces the one of
    [opts]. *)
Definition getPublicUser (user_id : string) (opts : option FindOneOptions.t)
    (rows : list User.t) : FindResult :=
  let by_id := fun u => String.eqb (User.id u) user_id in
  let condition :=
    match opts with
    | Some o =>
        match FindOneOptions.where_ o with
        | Some c => c
        | None => by_id
        end
    | None => by_id
    end in
  let columns :=
    (PublicUserProjection
     ++ match opts with
        | Some o =>
            match FindOneOptions.select o with
            | Some s => s
            | None => []
            end
        | None => []
        end)%list in
  match find condition rows with
  | Some u => Entity u columns
  | None => EntityNotFoundError
  end.

(** ** User flags *)

Definition CUSTOM_USER_FLAG_OFFSET : Z := Z.shiftl 1 32.

Module UserFlags.

Definition FLAGS : list (string * Z) :=
  [ ("DISCORD_EMPLOYEE", Z.shiftl 1 0);
    ("PARTNERED_SERVER_OWNER", Z.shiftl 1 1);
    ("HYPESQUAD_EVENTS", Z.shiftl 1 2);
    ("BUGHUNTER_LEVEL_1", Z.shiftl 1 3);
    ("MFA_SMS", Z.shiftl 1 4);
    ("PREMIUM_PROMO_DISMISSED", Z.shiftl 1 5);
    ("HOUSE_BRAVERY", Z.shiftl 1 6);
    ("HOUSE_BRILLIANCE", Z.shiftl 1 7);
    ("HOUSE_BALANCE", Z.shiftl 1 8);
    ("EARLY_SUPPORTER", Z.shiftl 1 9);
    ("TEAM_USER", Z.shiftl 1 10);
    ("TRUST_AND_SAFETY", Z.shiftl 1 11);
    ("SYSTEM", Z.shiftl 1 12);
    ("HAS_UNREAD_URGENT_MESSAGES", Z.shiftl 1 13);
    ("BUGHUNTER_LEVEL_2", Z.shiftl 1 14);
    ("UNDERAGE_DELETED", Z.shiftl 1 15);
    ("VERIFIED_BOT", Z.shiftl 1 16);
    ("EARLY_VERIFIED_BOT_DEVELOPER", Z.shiftl 1 17);
    ("CERTIFIED_MODERATOR", Z.shiftl 1 18);
    ("BOT_HTTP_INTERACTIONS", Z.shiftl 1 19) ].

(** All the named flags together. *)
Definition ALL : Z := fold_right (fun f acc => Z.lor (snd f) acc) 0 FLAGS.

(** A flag is one bit among the bits 0 to 19, below the offset of the
    custom flags. *)
Definition single_low_bit (f : string * Z) : bool :=
  existsb (fun k => snd f =? 2 ^ Z.of_nat k) (seq 0 20)
  && (snd f <? CUSTOM_USER_FLAG_OFFSET).

(** Two flags of different names share no bit. *)
Definition disjoint (f g : string * Z) : bool :=
  String.eqb (fst f) (fst g) || (Z.land (snd f) (snd g) =? 0).

End UserFlags.

(** ** The task scheduled by [User.register] *)

Module AutoJoin.

(** [Config.get().guild.autoJoin]. *)
Record t := {
  enabled : bool;
  guilds : option (list string)
}.

Section Task.

(** The memberships, and [Member.addToGuild(user_id, guild)] on them: the
    error it rejects with, if any, and the memberships after the call. *)
Variable Memberships : Type.
Variable addToGuild :
  string -> string -> Memberships -> option string * Memberships.

(** The loop of lines 297 to 301: each call is awaited, and a rejection is
    caught and written to the console.  The result lists the calls made,
    each with its outcome, and the lines written. *)
Fixpoint join_all (user_id : string) (guilds : list string)
    (m : Memberships) : list (string * option string) * list string
                        * Memberships :=
  match guilds with
  | [] => ([], [], m)
  | guild :: rest =>
      let (outcome, m') := addToGuild user_id guild m in
      let '(calls, console, m'') := join_all user_id rest m' in
      ((guild, outcome) :: calls,
       match outcome with
       | Some e => ("[Autojoin] " ++ e) :: console
       | None => console
       end,
       m'')
  end.

(** The callback given to [setImmediate], lines 295 to 303. *)
Definition task (cfg : t) (user_id : string) (m : Memberships)
  : list (string * option string) * list string * Memberships :=
  if enabled cfg then
    join_all user_id
      (match guilds cfg with
       | Some gs => gs
       | None => []
       end) m
  else ([], [], m).

End Task.

End AutoJoin.

(** The request with another fingerprint. *)
Definition with_fingerprint (fingerprint : option string) (body : Body.t)
  : Body.t :=
  {| Body.email := Body.email body;
     Body.username := Body.username body;
     Body.password := Body.password body;
     Body.consent := Body.consent body;
     Body.fingerprint := fingerprint;
     Body.invite := Body.invite body;
     Body.date_of_birth := Body.date_of_birth body;
     Body.gift_code_sku_id := Body.gift_code_sku_id body;
     Body.captcha_key := Body.captcha_key body |}.

(** ** Decimal rendering of the discriminator *)

Lemma holds_from_spec (p : Z -> bool) (count : nat) :
  forall n, holds_from p n count = true ->
  forall m, n <= m < n + Z.of_nat count -> p m = true.
Proof.
  induction count as [|count IH]; intros n H m Hm.
  - lia.
  - cbn [holds_from] in H. apply andb_true_iff in H. destruct H as [Hn Hr].
    destruct (Z.eq_dec m n) as [->|Hne]; [exact Hn|].
    apply (IH (n + 1) Hr). lia.
Qed.

Lemma pad4_table : holds_from pad4_ok 1 (Z.to_nat 9999) = true.
Proof. vm_compute. reflexivity. Qed.

Lemma pad4_in_range (n : Z) :
  1 <= n <= 9999 ->
  valid_discriminator (pad4 n) = true /\ JS.decimal_value (pad4 n) = n.
Proof.
  intros Hn.
  assert (H : pad4_ok n = true).
  { apply (holds_from_spec pad4_ok _ 1 pad4_table). lia. }
  unfold pad4_ok in H. apply andb_true_iff in H. destruct H as [Hv Hd].
  split; [exact Hv | now apply Z.eqb_eq].
Qed.

Lemma valid_discriminator_spec (d : string) :
  valid_discriminator d = true ->
  String.length d = 4%nat /\ JS.all_chars JS.is_digit d = true /\ d <> "0000".
Proof.
  unfold valid_discriminator. intros H.
  apply andb_true_iff in H. destruct H as [H Hz].
  apply andb_true_iff in H. destruct H as [Hl Hd].
  apply Nat.eqb_eq in Hl.
  apply negb_true_iff in Hz. apply String.eqb_neq in Hz.
  auto.
Qed.

(** ** Running the monad *)

Lemma bind_throw_if {B} (c : bool) (e : Exn) (k : M B) (st : St) :
  (throw_if c e ;; k) st = if c then (Thrown e, st) else k st.
Proof. unfold bind, throw_if. destruct c; reflexivity. Qed.

Lemma bind_ret {A B} (a : A) (k : A -> M B) (st : St) :
  (x <- ret a ;; k x) st = k a st.
Proof. reflexivity. Qed.

Lemma bind_throw {A B} (e : Exn) (k : A -> M B) (st : St) :
  (x <- throw e ;; k x) st = (Thrown e, st).
Proof. reflexivity. Qed.

Lemma bind_respond {A B} (r : Response) (k : A -> M B) (st : St) :
  (x <- respond r ;; k x) st = (Returned r, st).
Proof. reflexivity. Qed.

Lemma bind_assoc {A B C} (m : M A) (f : A -> M B) (g : B -> M C) (st : St) :
  (y <- (x <- m ;; f x) ;; g y) st = (x <- m ;; (y <- f x ;; g y)) st.
Proof. unfold bind. destruct (m st) as [[a|e|r] st']; reflexivity. Qed.

Lemma read_only_ret {A} (a : A) : read_only (ret a).
Proof. intro; reflexivity. Qed.

Lemma read_only_throw {A} (e : Exn) : read_only (@throw A e).
Proof. intro; reflexivity. Qed.

Lemma read_only_respond {A} (r : Response) : read_only (@respond A r).
Proof. intro; reflexivity. Qed.

Lemma read_only_throw_if (c : bool) (e : Exn) : read_only (throw_if c e).
Proof. intro; unfold throw_if; destruct c; reflexivity. Qed.

Lemma read_only_lift {A} (r : Exn + A) : read_only (lift r).
Proof. intro; destruct r; reflexivity. Qed.

Lemma read_only_bind {A B} (m : M A) (k : A -> M B) :
  read_only m -> (forall a, read_only (k a)) -> read_only (bind m k).
Proof.
  intros Hm Hk st. unfold bind.
  specialize (Hm st). destruct (m st) as [[a|e|r] st']; simpl in *; subst.
  - apply Hk.
  - reflexivity.
  - reflexivity.
Qed.

Lemma read_only_findOne_email (e : string) : read_only (User_findOne_email e).
Proof. intro; reflexivity. Qed.

Lemma read_only_findOne_tag (d u : string) : read_only (User_findOne_tag d u).
Proof. intro; reflexivity. Qed.

Lemma read_only_findOne_fingerprint (w : World) (f : option string) :
  read_only (User_findOne_fingerprint w f).
Proof. intro; reflexivity. Qed.

Create HintDb readonly.

#[local] Hint Resolve read_only_ret read_only_throw read_only_respond
  read_only_throw_if read_only_lift read_only_findOne_email
  read_only_findOne_tag read_only_findOne_fingerprint : readonly.

Ltac read_only_tac :=
  repeat first
    [ apply read_only_bind; [ | intro ]
    | solve [ auto with readonly ]
    | match goal with
      | |- read_only (if ?c then _ else _) => destruct c
      | |- read_only (match ?o with Some _ => _ | None => _ end) => destruct o
      end ].

Lemma drawn_0 (st : St) : drawn st 0 = st.
Proof. destruct st; unfold drawn; cbn; f_equal; lia. Qed.

Lemma discriminator_loop_spec (w : World) (name : string) :
  forall remaining d0 e0 st,
  exists d e n,
    discriminator_loop w name remaining d0 e0 st = (Normal (d, e), drawn st n)
    /\ (n <= remaining)%nat
    /\ ((remaining = 0%nat /\ n = 0%nat /\ d = d0 /\ e = e0)
        \/ ((1 <= n)%nat
            /\ d = pad4 (random w (draws st + n - 1)%nat)
            /\ e = lookup_tag (users (store st)) d name
            /\ (isSome e = true -> n = remaining)
            /\ (forall k, (k < n - 1)%nat ->
                  isSome (lookup_tag (users (store st))
                            (pad4 (random w (draws st + k)%nat)) name) = true))).
Proof.
  induction remaining as [|r IH]; intros d0 e0 st.
  - exists d0, e0, 0%nat. cbn [discriminator_loop]. unfold ret.
    rewrite drawn_0. repeat split; auto.
  - cbn [discriminator_loop].
    unfold bind at 1. unfold randomIntBetween_1_9999 at 1.
    unfold bind at 1. unfold User_findOne_tag at 1. cbn [store users].
    fold (pad4 (random w (draws st))).
    fold (lookup_tag (users (store st)) (pad4 (random w (draws st))) name).
    destruct (lookup_tag (users (store st)) (pad4 (random w (draws st))) name)
      as [u|] eqn:Hl; cbn [isSome negb].
    + set (st1 := {| store := store st; draws := S (draws st); saves := saves st |}).
      destruct (IH (pad4 (random w (draws st))) (Some u) st1)
        as (d & e & n & Heq & Hn & Hcase).
      exists d, e.
      destruct Hcase as [(Hr & Hn0 & Hd & He) | (Hn1 & Hd & He & Hfull & Hall)].
      * exists 1%nat. subst. rewrite Heq. unfold drawn, st1; cbn [store draws saves].
        split; [do 2 f_equal; lia|].
        split; [lia|]. right.
        replace (draws st + 1 - 1)%nat with (draws st) by lia.
        repeat split; auto. intros k Hk; lia.
      * subst st1. exists (S n). rewrite Heq. unfold drawn; cbn [store draws saves].
        split; [do 2 f_equal; lia|].
        split; [lia|]. right.
        cbn [store draws] in Hd, He, Hall.
        replace (S (draws st) + n - 1)%nat with (draws st + S n - 1)%nat in Hd by lia.
        split; [lia|]. split; [exact Hd|]. split; [exact He|]. split.
        -- intros Hs. specialize (Hfull Hs). lia.
        -- intros k Hk. destruct k as [|k].
           ++ rewrite Nat.add_0_r, Hl. reflexivity.
           ++ replace (draws st + S k)%nat with (S (draws st) + k)%nat by lia.
              apply Hall. lia.
    + exists (pad4 (random w (draws st))), None, 1%nat.
      unfold ret, drawn; cbn [store draws saves].
      split; [do 2 f_equal; lia|].
      split; [lia|]. right.
      replace (draws st + 1 - 1)%nat with (draws st) by lia.
      repeat split; auto; try discriminate. intros k Hk; lia.
Qed.

Section RegistrationFacts.

Variable trimSpecial : string -> string.
Variable EMAIL_REGEX : string -> option RegExpMatchArray.
Variable years_before : Z -> Z -> Z.

Lemma read_only_email_check cfg body adj : read_only (email_check cfg body adj).
Proof. unfold email_check. read_only_tac. Qed.

Lemma read_only_date_of_birth_check cfg body w :
  read_only (date_of_birth_check years_before cfg body w).
Proof. unfold date_of_birth_check. read_only_tac. Qed.

Lemma read_only_fingerprint_check cfg body w :
  read_only (fingerprint_check cfg body w).
Proof. unfold fingerprint_check. read_only_tac. Qed.

Lemma read_only_captcha_check cfg body : read_only (captcha_check cfg body).
Proof. unfold captcha_check. read_only_tac. Qed.

Lemma read_only_fraud_checks cfg body w :
  read_only (fraud_checks EMAIL_REGEX years_before cfg body w).
Proof.
  unfold fraud_checks, proxy_check.
  repeat first
    [ apply read_only_bind; [ | intro ]
    | apply read_only_email_check
    | apply read_only_date_of_birth_check
    | apply read_only_fingerprint_check
    | apply read_only_captcha_check
    | solve [ auto with readonly ] ].
Qed.

End RegistrationFacts.

Lemma bind_read_only_run {A B} (m : M A) (k : A -> M B) (st : St) :
  read_only m ->
  bind m k st =
  match fst (m st) with
  | Normal a => k a st
  | Thrown e => (Thrown e, st)
  | Returned r => (Returned r, st)
  end.
Proof.
  intros Hm. unfold bind. specialize (Hm st).
  destruct (m st) as [[a|e|r] st']; cbn [fst snd] in *; subst; reflexivity.
Qed.

Lemma bind_lift {A B} (r : Exn + A) (k : A -> M B) (st : St) :
  bind (lift r) k st =
  match r with
  | inl e => (Thrown e, st)
  | inr a => k a st
  end.
Proof. destruct r; reflexivity. Qed.

Lemma read_only_run {A} (m : M A) (st : St) :
  read_only m -> m st = (fst (m st), st).
Proof.
  intros Hm. specialize (Hm st). destruct (m st) as [c st']; cbn in *; now subst.
Qed.

(** The errors each block of checks can throw. *)

Lemma email_check_run cfg body adj st :
  fst (email_check cfg body adj st) =
  if JS.truthy_opt (Body.email body) then
    match adj with
    | Some a =>
        if negb (JS.truthy a) then Thrown (FieldErrors "email" "INVALID_EMAIL")
        else if isSome (find (fun u => JS.strict_eq (User.email u) a)
                          (users (store st)))
        then Thrown (FieldErrors "email" "EMAIL_ALREADY_REGISTERED")
        else Normal tt
    | None => Thrown (FieldErrors "email" "INVALID_EMAIL")
    end
  else if Config.email_necessary cfg
       then Thrown (FieldErrors "email" "BASE_TYPE_REQUIRED")
       else Normal tt.
Proof.
  unfold email_check.
  destruct (JS.truthy_opt (Body.email body)).
  - destruct adj as [a|]; [|reflexivity].
    rewrite bind_throw_if.
    destruct (negb (JS.truthy a)); [reflexivity|].
    unfold bind, User_findOne_email, option_string_eqb, throw_if.
    destruct (find _ _); reflexivity.
  - unfold throw_if. destruct (Config.email_necessary cfg); reflexivity.
Qed.

Lemma date_of_birth_check_run years_before cfg body w st :
  fst (date_of_birth_check years_before cfg body w st) =
  if Config.dateOfBirth_necessary cfg && negb (isSome (Body.date_of_birth body))
  then Thrown (FieldErrors "date_of_birth" "BASE_TYPE_REQUIRED")
  else if negb (Config.dateOfBirth_minimum cfg =? 0)
          && match Body.date_of_birth body with
             | Some d => years_before (now w) (Config.dateOfBirth_minimum cfg) <? d
             | None => false
             end
       then Thrown (FieldErrors "date_of_birth" "DATE_OF_BIRTH_UNDERAGE")
       else Normal tt.
Proof.
  unfold date_of_birth_check.
  destruct (Config.dateOfBirth_necessary cfg && _); [reflexivity|].
  destruct (negb (Config.dateOfBirth_minimum cfg =? 0)); [|reflexivity].
  cbn [andb]. unfold throw_if.
  destruct (Body.date_of_birth body) as [d|]; [|reflexivity].
  destruct (_ <? d); reflexivity.
Qed.

Lemma fingerprint_check_run cfg body w st :
  fst (fingerprint_check cfg body w st) =
  if negb (Config.allowMultipleAccounts cfg)
     && isSome (fingerprint_query w (users (store st)) (Body.fingerprint body))
  then Thrown (FieldErrors "email" "EMAIL_ALREADY_REGISTERED")
  else Normal tt.
Proof.
  unfold fingerprint_check.
  destruct (negb (Config.allowMultipleAccounts cfg)); [|reflexivity].
  unfold bind, User_findOne_fingerprint, throw_if. cbn [andb].
  destruct (fingerprint_query _ _ _); reflexivity.
Qed.

Lemma captcha_check_run cfg body st :
  fst (captcha_check cfg body st) =
  if Config.requireCaptcha cfg && Config.captcha_enabled cfg
     && negb (JS.truthy_opt (Body.captcha_key body))
  then Returned (Captcha_required (Config.captcha_sitekey cfg)
                   (Config.captcha_service cfg))
  else Normal tt.
Proof.
  unfold captcha_check.
  destruct (Config.requireCaptcha cfg && Config.captcha_enabled cfg);
    [|reflexivity].
  cbn [andb]. destruct (negb _); reflexivity.
Qed.

Section FraudChecks.

Variable EMAIL_REGEX : string -> option RegExpMatchArray.
Variable years_before : Z -> Z -> Z.

(** The checks unfolded into one decision list, in the order in which the
    handler makes them. *)
Lemma fraud_checks_run cfg body w st :
  fraud_checks EMAIL_REGEX years_before cfg body w st =
  (if Config.blockProxies cfg && ip_is_proxy w
   then Thrown (HTTPError "Your IP is blocked from registration")
   else
     match adjustEmail_call EMAIL_REGEX (Body.email body) with
     | inl e => Thrown e
     | inr adj =>
         if negb (Config.allowNewRegistration cfg)
         then Thrown (FieldErrors "email" "REGISTRATION_DISABLED")
         else if negb (Body.consent body)
         then Thrown (FieldErrors "consent" "CONSENT_REQUIRED")
         else if Config.requireInvite cfg
                 && negb (JS.truthy_opt (Body.invite body))
         then Thrown (FieldErrors "email" "INVITE_ONLY")
         else
           match fst (email_check cfg body adj st) with
           | Normal _ =>
               match fst (date_of_birth_check years_before cfg body w st) with
               | Normal _ =>
                   match fst (fingerprint_check cfg body w st) with
                   | Normal _ =>
                       match fst (captcha_check cfg body st) with
                       | Normal _ => Normal adj
                       | Thrown e => Thrown e
                       | Returned r => Returned r
                       end
                   | Thrown e => Thrown e
                   | Returned r => Returned r
                   end
               | Thrown e => Thrown e
               | Returned r => Returned r
               end
           | Thrown e => Thrown e
           | Returned r => Returned r
           end
     end, st).
Proof.
  unfold fraud_checks, proxy_check.
  rewrite bind_throw_if.
  destruct (Config.blockProxies cfg && ip_is_proxy w); [reflexivity|].
  rewrite bind_lift.
  destruct (adjustEmail_call EMAIL_REGEX (Body.email body)) as [e|adj];
    [reflexivity|].
  rewrite bind_throw_if.
  destruct (negb (Config.allowNewRegistration cfg)); [reflexivity|].
  rewrite bind_throw_if.
  destruct (negb (Body.consent body)); [reflexivity|].
  rewrite bind_throw_if.
  destruct (Config.requireInvite cfg && _); [reflexivity|].
  rewrite bind_read_only_run by apply read_only_email_check.
  destruct (fst (email_check cfg body adj st)); try reflexivity.
  rewrite bind_read_only_run by apply read_only_date_of_birth_check.
  destruct (fst (date_of_birth_check years_before cfg body w st));
    try reflexivity.
  rewrite bind_read_only_run by apply read_only_fingerprint_check.
  destruct (fst (fingerprint_check cfg body w st)); try reflexivity.
  rewrite bind_read_only_run by apply read_only_captcha_check.
  destruct (fst (captcha_check cfg body st)); reflexivity.
Qed.

End FraudChecks.

Lemma register_route_run trimSpecial EMAIL_REGEX years_before cfg req body w st :
  RouteRun trimSpecial EMAIL_REGEX years_before cfg req body w st
    (register_route trimSpecial EMAIL_REGEX years_before cfg req body w st).
Proof.
  unfold register_route.
  rewrite bind_read_only_run by apply read_only_fraud_checks.
  pose proof (read_only_run _ st
                (read_only_fraud_checks EMAIL_REGEX years_before cfg body w)) as Hf.
  destruct (fst (fraud_checks EMAIL_REGEX years_before cfg body w st))
    as [adj|e|r].
  2: now apply Run_rejected.
  2: now apply Run_challenged.
  unfold bind at 1.
  destruct (discriminator_loop_spec w (trimSpecial (Body.username body))
              5 EmptyString None st)
    as (d & e & n & Heq & Hn & Hcase).
  rewrite Heq.
  destruct Hcase as [(H5 & _) | (Hn1 & Hd & He & Hfull & Hall)];
    [discriminate|].
  rewrite bind_throw_if.
  destruct (isSome e) eqn:Hse.
  - specialize (Hfull eq_refl). subst n.
    apply Run_exhausted with (adj := adj); [exact Hf|].
    intros k Hk. unfold taken, candidate.
    destruct (Nat.eq_dec k 4) as [->|Hne].
    + replace (draws st + 4)%nat with (draws st + 5 - 1)%nat by lia.
      rewrite <- Hd, <- He. exact Hse.
    + apply Hall. lia.
  - assert (Ht : taken trimSpecial body w st (n - 1) = false).
    { unfold taken, candidate.
      replace (draws st + (n - 1))%nat with (draws st + n - 1)%nat by lia.
      rewrite <- Hd, <- He. exact Hse. }
    assert (Hu : route_user w req (trimSpecial (Body.username body)) d adj
                   (bcrypt_hash w (Body.password body))
                 = candidate_user trimSpecial req body w st adj n).
    { unfold candidate_user, candidate.
      replace (draws st + (n - 1))%nat with (draws st + n - 1)%nat by lia.
      now rewrite <- Hd. }
    rewrite Hu.
    unfold bind, others_commit, User_save, drawn, ret.
    cbn [store draws saves users user_settings].
    fold (with_others w (store st)).
    destruct (user_save_rejects w (with_others w (store st))
                (candidate_user trimSpecial req body w st adj n))
      as [message|] eqn:Hsave.
    + now apply Run_save_rejected with (adj := adj).
    + now apply Run_registered.
Qed.


(** ** Discriminators of registered accounts *)

Lemma User_register_run trimSpecial input w st :
  let user := register_user trimSpecial input w in
  let s1 := match user_save_rejects w (store st) user with
            | Some _ => store st
            | None => with_user (store st) user
            end in
  User_register trimSpecial input w st =
  (match user_save_rejects w (store st) user,
         settings_save_rejects w s1 (User.settings user) with
   | Some m, _ => Thrown (QueryFailedError m)
   | None, Some m => Thrown (QueryFailedError m)
   | None, None => Normal user
   end,
   {| store :=
        match settings_save_rejects w s1 (User.settings user) with
        | Some _ => s1
        | None => {| users := users s1;
                     user_settings := user_settings s1 ++ [User.settings user] |}
        end;
      draws := draws st;
      saves := S (S (saves st)) |}).
Proof.
  cbv zeta. unfold User_register, bind, Promise_all2, User_save, UserSettings_save, ret.
  destruct (user_save_rejects w (store st) (register_user trimSpecial input w))
    as [m|]; cbn [store draws saves];
    [|fold (with_user (store st) (register_user trimSpecial input w))];
    destruct (settings_save_rejects w _ _) as [m'|]; reflexivity.
Qed.

(** C1 (as amended): an account created by the route handler carries a
    discriminator of four decimal digits whose value lies between 1 and
    9999, so never "0000"; an account created by the static method
    [User.register] always carries the literal "0000". *)
Theorem registered_discriminator :
  (forall trimSpecial EMAIL_REGEX years_before cfg req body w st token st',
      (forall k, 1 <= random w k <= 9999) ->
      register_route trimSpecial EMAIL_REGEX years_before cfg req body w st
      = (Normal (Json_token token), st') ->
      exists user,
        users (store st')
        = (users (store st) ++ concurrent_commits w ++ [user])%list
        /\ valid_discriminator (User.discriminator user) = true
        /\ 1 <= JS.decimal_value (User.discriminator user) <= 9999)
  /\
  (forall trimSpecial input w st user st',
      User_register trimSpecial input w st = (Normal user, st') ->
      In user (users (store st'))
      /\ User.discriminator user = "0000").
Proof.
  split.
  - intros trimSpecial EMAIL_REGEX years_before cfg req body w st token st'
           Hrand Hrun.
    pose proof (register_route_run trimSpecial EMAIL_REGEX years_before
                  cfg req body w st) as R.
    rewrite Hrun in R. inversion R as [ | | | | adj n Hf Hn Hall Hfree Hsave Htok ].
    subst. exists (candidate_user trimSpecial req body w st adj n).
    split.
    + cbn [store users with_user with_others]. now rewrite app_assoc.
    + unfold candidate_user, route_user, candidate; cbn [User.discriminator].
      destruct (pad4_in_range (random w (draws st + (n - 1))%nat) (Hrand _))
        as [Hv Hd].
      rewrite Hd. split; [exact Hv | apply Hrand].
  - intros trimSpecial input w st user st' Hrun.
    rewrite User_register_run in Hrun. cbv zeta in Hrun.
    destruct (user_save_rejects w (store st) (register_user trimSpecial input w))
      as [m|]; [discriminate|].
    destruct (settings_save_rejects w _ _) as [m|]; [discriminate|].
    inversion Hrun; subst. cbn [store users with_user].
    split; [apply in_or_app; right; now left | reflexivity].
Qed.

(** C1, the claim as stated: a registration through [User.register] ends
    with an account whose discriminator is "0000". *)
Lemma User_register_assigns_0000 :
  match User_register Sample.trimSpecial Sample.alice_input Sample.quiet
          (Sample.start Sample.empty_store) with
  | (Normal user, st') =>
      In user (users (store st'))
      /\ User.discriminator user = "0000"
      /\ valid_discriminator (User.discriminator user) = false
  | _ => False
  end.
Proof. cbn. repeat split. now left. Qed.

(** A registration through the route handler that succeeds. *)
Lemma registered_discriminator_witness :
  exists user,
    users (store (snd (register_route Sample.trimSpecial EmailGrammar.EMAIL_REGEX
                         Sample.years_before Sample.open_config Sample.request
                         Sample.alice Sample.quiet
                         (Sample.start Sample.empty_store))))
    = (users Sample.empty_store ++ concurrent_commits Sample.quiet ++ [user])%list
    /\ valid_discriminator (User.discriminator user) = true
    /\ 1 <= JS.decimal_value (User.discriminator user) <= 9999.
Proof.
  refine (proj1 registered_discriminator Sample.trimSpecial
            EmailGrammar.EMAIL_REGEX Sample.years_before Sample.open_config
            Sample.request Sample.alice Sample.quiet
            (Sample.start Sample.empty_store) 
            "token.1041712969216000000" _ _ _).
  - intro k. cbn [random Sample.quiet].
    pose proof (Z.mod_pos_bound (1233 + Z.of_nat k) 9999). lia.
  - vm_compute. reflexivity.
Defined.

(** ** The e-mail stored by [User.register] *)

(** C10: the account that [User.register] creates stores the trimmed user
    name in its e-mail column, that account is the only row the call adds
    to the accounts, and the e-mail of the input has no influence on the
    call. *)
Theorem User_register_email_is_username :
  forall trimSpecial input w st,
    User.email (register_user trimSpecial input w)
    = Some (trimSpecial (RegisterInput.username input))
    /\ (fst (User_register trimSpecial input w st)
        = Normal (register_user trimSpecial input w)
        \/ exists m, fst (User_register trimSpecial input w st)
                     = Thrown (QueryFailedError m))
    /\ (forall u,
          In u (users (store (snd (User_register trimSpecial input w st)))) ->
          In u (users (store st)) \/ u = register_user trimSpecial input w)
    /\ (forall e,
          User_register trimSpecial (with_email e input) w st
          = User_register trimSpecial input w st).
Proof.
  intros trimSpecial input w st.
  split; [reflexivity|].
  split; [|split].
  - rewrite User_register_run. cbv zeta. cbn [fst].
    destruct (user_save_rejects w (store st) _) as [m|]; [right; now exists m|].
    destruct (settings_save_rejects w _ _) as [m|]; [right; now exists m|].
    now left.
  - intros u. rewrite User_register_run. cbv zeta. cbn [snd store].
    destruct (user_save_rejects w (store st) _) as [m|];
      destruct (settings_save_rejects w _ _) as [m'|];
      cbn [users with_user]; intros Hin; auto;
      apply in_app_or in Hin; destruct Hin as [Hin|[Hin|[]]]; auto.
  - intros e. reflexivity.
Qed.

(** ** Persistence of an account and its settings *)

(** C2 (as amended): the route handler writes the account and its settings
    in one save, so a run leaves either both rows or no row of its own;
    [User.register] issues the account save and a separate settings save
    side by side: both rows are visible when both saves succeed, none when
    both fail, and when the account save fails while the settings save
    succeeds the settings row stays visible without its account. *)
Theorem account_and_settings_persistence :
  (forall trimSpecial EMAIL_REGEX years_before cfg req body w st,
      let run := register_route trimSpecial EMAIL_REGEX years_before
                   cfg req body w st in
      (exists user token,
          fst run = Normal (Json_token token)
          /\ store (snd run) = with_user (with_others w (store st)) user)
      \/ ((forall r, fst run <> Normal r)
          /\ (store (snd run) = store st
              \/ store (snd run) = with_others w (store st))))
  /\
  (forall trimSpecial input w st,
      let user := register_user trimSpecial input w in
      let settings := User.settings user in
      let run := User_register trimSpecial input w st in
      (user_save_rejects w (store st) user = None ->
       settings_save_rejects w (with_user (store st) user) settings = None ->
       fst run = Normal user
       /\ In user (users (store (snd run)))
       /\ In settings (user_settings (store (snd run))))
      /\ (user_save_rejects w (store st) user <> None ->
          settings_save_rejects w (store st) settings <> None ->
          store (snd run) = store st /\ forall u, fst run <> Normal u)
      /\ (user_save_rejects w (store st) user <> None ->
          settings_save_rejects w (store st) settings = None ->
          users (store (snd run)) = users (store st)
          /\ user_settings (store (snd run))
             = (user_settings (store st) ++ [settings])%list
          /\ forall u, fst run <> Normal u)).
Proof.
  split.
  - intros trimSpecial EMAIL_REGEX years_before cfg req body w st run.
    pose proof (register_route_run trimSpecial EMAIL_REGEX years_before
                  cfg req body w st) as R.
    fold run in R.
    inversion R as [ e Hf He | r Hf He | adj Hf Hall He
                   | adj n m Hf Hn Hall Hfree Hsave He
                   | adj n Hf Hn Hall Hfree Hsave He ]; cbn [fst snd store].
    + right. split; [intros r; discriminate | now left].
    + right. split; [intros r'; discriminate | now left].
    + right. split; [intros r; discriminate | now left].
    + right. split; [intros r; discriminate | now right].
    + left. eexists. eexists. split; reflexivity.
  - intros trimSpecial input w st user settings run.
    unfold run. rewrite User_register_run. cbv zeta. fold user. fold settings.
    cbn [fst snd store].
    split; [|split].
    + intros Hu Hs. rewrite Hu, Hs. cbn [users user_settings with_user].
      split; [reflexivity|].
      split; apply in_or_app; right; now left.
    + intros Hu Hs.
      destruct (user_save_rejects w (store st) user); [|congruence].
      destruct (settings_save_rejects w (store st) settings); [|congruence].
      split; [reflexivity | intros u; discriminate].
    + intros Hu Hs.
      destruct (user_save_rejects w (store st) user); [|congruence].
      rewrite Hs. cbn [users user_settings].
      split; [reflexivity|]. split; [reflexivity | intros u; discriminate].
Qed.

(** C2, the claim as stated: the account save fails, the settings save
    succeeds; the call throws and the settings row is visible while no
    account row is. *)
Lemma settings_row_outlives_failed_account :
  match User_register Sample.trimSpecial Sample.alice_input
          Sample.account_save_fails (Sample.start Sample.empty_store) with
  | (Thrown _, st') =>
      users (store st') = []
      /\ user_settings (store st')
         = [User.settings (register_user Sample.trimSpecial Sample.alice_input
                             Sample.account_save_fails)]
  | _ => False
  end.
Proof. cbn. split; reflexivity. Qed.

(** The account save fails and the settings save succeeds. *)
Lemma account_and_settings_persistence_witness :
  users (store (snd (User_register Sample.trimSpecial Sample.alice_input
                       Sample.account_save_fails
                       (Sample.start Sample.empty_store))))
  = users Sample.empty_store
  /\ user_settings (store (snd (User_register Sample.trimSpecial
                                  Sample.alice_input Sample.account_save_fails
                                  (Sample.start Sample.empty_store))))
     = (user_settings Sample.empty_store
        ++ [User.settings (register_user Sample.trimSpecial Sample.alice_input
                             Sample.account_save_fails)])%list
  /\ forall u, fst (User_register Sample.trimSpecial Sample.alice_input
                      Sample.account_save_fails
                      (Sample.start Sample.empty_store)) <> Normal u.
Proof.
  apply (proj2 (proj2 (proj2 account_and_settings_persistence
                         Sample.trimSpecial Sample.alice_input
                         Sample.account_save_fails
                         (Sample.start Sample.empty_store)))).
  - cbn. discriminate.
  - reflexivity.
Defined.

(** ** The errors of the checks *)

Lemma adjustEmail_call_throws EMAIL_REGEX email e :
  adjustEmail_call EMAIL_REGEX email = inl e -> e = TypeError.
Proof.
  unfold adjustEmail_call, adjustEmail.
  destruct email as [s|]; [|congruence].
  destruct (EMAIL_REGEX s) as [parts|]; [|discriminate].
  destruct (length parts <? 5)%nat; [discriminate|].
  destruct (_ || _); [|discriminate].
  destruct (index parts 1); [discriminate|congruence].
Qed.

Ltac in_list :=
  cbn [In]; repeat first [ left; reflexivity | right ].

Lemma fraud_checks_thrown EMAIL_REGEX years_before cfg body w st e st' :
  fraud_checks EMAIL_REGEX years_before cfg body w st = (Thrown e, st') ->
  (Config.blockProxies cfg && ip_is_proxy w = true
   /\ e = HTTPError "Your IP is blocked from registration")
  \/ (Config.blockProxies cfg && ip_is_proxy w = false
      /\ adjustEmail_call EMAIL_REGEX (Body.email body) = inl e)
  \/ (Config.blockProxies cfg && ip_is_proxy w = false
      /\ (exists adj, adjustEmail_call EMAIL_REGEX (Body.email body) = inr adj)
      /\ In e check_errors).
Proof.
  rewrite fraud_checks_run. intros H. injection H as H _. revert H.
  destruct (Config.blockProxies cfg && ip_is_proxy w).
  { intros H; injection H as <-. left. auto. }
  destruct (adjustEmail_call EMAIL_REGEX (Body.email body)) as [e0|adj].
  { intros H; injection H as <-. right; left. auto. }
  intros H. right; right. split; [reflexivity|]. split; [now exists adj|].
  revert H. unfold check_errors.
  destruct (negb (Config.allowNewRegistration cfg));
    [intros H; injection H as <-; in_list|].
  destruct (negb (Body.consent body));
    [intros H; injection H as <-; in_list|].
  destruct (Config.requireInvite cfg && _);
    [intros H; injection H as <-; in_list|].
  rewrite email_check_run, date_of_birth_check_run,
    fingerprint_check_run, captcha_check_run.
  repeat match goal with
         | |- context [if ?c then _ else _] => destruct c
         | |- context [match ?o with Some _ => _ | None => _ end] => destruct o
         end;
    intros H; try discriminate; injection H as <-; in_list.
Qed.

(** ** A save that the engine rejects *)

(** C3 (as amended): the handler draws at most five candidates and issues
    at most one save; a save that the engine rejects is not retried: the
    engine's error reaches the caller as it is, after that single save,
    and no row of the request has been written. *)
Theorem rejected_save_is_not_retried :
  forall trimSpecial EMAIL_REGEX years_before cfg req body w st,
    let run := register_route trimSpecial EMAIL_REGEX years_before
                 cfg req body w st in
    (draws (snd run) <= draws st + 5)%nat
    /\ (saves (snd run) = saves st
        /\ (forall message, fst run <> Thrown (QueryFailedError message))
        \/
        saves (snd run) = S (saves st)
        /\ exists user,
             (user_save_rejects w (with_others w (store st)) user = None
              /\ fst run = Normal (Json_token (token_of w (User.id user)))
              /\ store (snd run) = with_user (with_others w (store st)) user)
             \/
             (exists message,
                 user_save_rejects w (with_others w (store st)) user
                 = Some message
                 /\ fst run = Thrown (QueryFailedError message)
                 /\ store (snd run) = with_others w (store st))).
Proof.
  intros trimSpecial EMAIL_REGEX years_before cfg req body w st run.
  pose proof (register_route_run trimSpecial EMAIL_REGEX years_before
                cfg req body w st) as R.
  fold run in R.
  assert (Hchecks : forall e message,
             fraud_checks EMAIL_REGEX years_before cfg body w st
             = (Thrown e, st) ->
             e <> QueryFailedError message).
  { intros e message Hc ->.
    apply fraud_checks_thrown in Hc.
    destruct Hc as [(_ & Hc) | [(_ & Hc) | (_ & _ & Hc)]].
    - discriminate.
    - apply adjustEmail_call_throws in Hc. discriminate.
    - unfold check_errors in Hc. cbn [In] in Hc.
      repeat destruct Hc as [Hc | Hc]; try discriminate; contradiction. }
  inversion R as [ e Hf He | r Hf He | adj Hf Hall He
                 | adj n m Hf Hn Hall Hfree Hsave He
                 | adj n Hf Hn Hall Hfree Hsave He ];
    cbn [fst snd store draws saves drawn].
  - split; [lia|]. left. split; [reflexivity|].
    intros message Heq. injection Heq as ->. now apply (Hchecks _ message Hf).
  - split; [lia|]. left. split; [reflexivity|]. intros message; discriminate.
  - split; [lia|]. left. split; [reflexivity|]. intros message; discriminate.
  - split; [lia|]. right. split; [reflexivity|].
    exists (candidate_user trimSpecial req body w st adj n).
    right. exists m. auto.
  - split; [lia|]. right. split; [reflexivity|].
    exists (candidate_user trimSpecial req body w st adj n).
    left. auto.
Qed.

(** C3, the claim as stated: another registration commits alice#1234 after
    the handler's lookup; the handler's save is refused by the uniqueness
    constraint and the engine's error is thrown after one draw and one
    save. *)
Lemma late_collision_surfaces_engine_error :
  register_route Sample.trimSpecial EmailGrammar.EMAIL_REGEX
    Sample.years_before Sample.open_config Sample.request Sample.alice
    Sample.late_collision (Sample.start Sample.empty_store)
  = (Thrown (QueryFailedError
               "UNIQUE constraint failed: users.username, users.discriminator"),
     {| store := {| users := [Sample.rival];
                    user_settings := [User.settings Sample.rival] |};
        draws := 1;
        saves := 1 |}).
Proof. vm_compute. reflexivity. Qed.

(** ** Bounded allocation *)

Lemma isSome_find_exists {A} (f : A -> bool) (l : list A) :
  isSome (find f l) = existsb f l.
Proof.
  induction l as [|a l IH]; [reflexivity|].
  cbn [find existsb]. destruct (f a); [reflexivity|exact IH].
Qed.

Lemma in_numbers_from (count : nat) :
  forall n m, n <= m < n + Z.of_nat count -> In m (Sample.numbers_from n count).
Proof.
  induction count as [|count IH]; intros n m Hm; [lia|].
  cbn [Sample.numbers_from In].
  destruct (Z.eq_dec n m) as [->|Hne]; [now left|].
  right. apply IH. lia.
Qed.

Lemma saturated_store_taken (name : string) (n : Z) :
  1 <= n <= 9999 ->
  isSome (lookup_tag (users (Sample.saturated_store name)) (pad4 n) name) = true.
Proof.
  intros Hn. unfold lookup_tag. rewrite isSome_find_exists.
  apply existsb_exists. exists (Sample.tagged name n). split.
  - cbn [users Sample.saturated_store]. apply in_map.
    apply in_numbers_from. lia.
  - unfold Sample.tagged, Sample.account.
    cbn [User.discriminator User.username]. unfold pad4.
    now rewrite !String.eqb_refl.
Qed.

(** C4: a run of the handler draws at most five candidates; when the
    checks have passed and each of the five lookups finds its candidate
    taken, the run ends after exactly five draws with the error
    USERNAME_TOO_MANY_USERS on the user name, and nothing is saved; this
    is what happens when all 9999 discriminators of the name are taken. *)
Theorem allocation_is_bounded :
  forall trimSpecial EMAIL_REGEX years_before cfg req body w st,
    let run := register_route trimSpecial EMAIL_REGEX years_before
                 cfg req body w st in
    let exhausted :=
      (Thrown (FieldErrors "username" "USERNAME_TOO_MANY_USERS"), drawn st 5) in
    (draws (snd run) <= draws st + 5)%nat
    /\ (forall adj,
          fraud_checks EMAIL_REGEX years_before cfg body w st = (Normal adj, st) ->
          (forall k, (k < 5)%nat -> taken trimSpecial body w st k = true) ->
          run = exhausted)
    /\ (forall adj,
          fraud_checks EMAIL_REGEX years_before cfg body w st = (Normal adj, st) ->
          (forall k, 1 <= random w k <= 9999) ->
          (forall n, 1 <= n <= 9999 ->
                     isSome (lookup_tag (users (store st)) (pad4 n)
                               (trimSpecial (Body.username body))) = true) ->
          run = exhausted).
Proof.
  intros trimSpecial EMAIL_REGEX years_before cfg req body w st run exhausted.
  pose proof (register_route_run trimSpecial EMAIL_REGEX years_before
                cfg req body w st) as R.
  fold run in R.
  assert (Hfull : forall adj,
             fraud_checks EMAIL_REGEX years_before cfg body w st
             = (Normal adj, st) ->
             (forall k, (k < 5)%nat -> taken trimSpecial body w st k = true) ->
             run = exhausted).
  { intros adj Hpass Htaken.
    inversion R as [ e Hf He | r Hf He | adj' Hf Hall He
                   | adj' n m Hf Hn Hall Hfree Hsave He
                   | adj' n Hf Hn Hall Hfree Hsave He ].
    - congruence.
    - congruence.
    - reflexivity.
    - rewrite Htaken in Hfree by lia. discriminate.
    - rewrite Htaken in Hfree by lia. discriminate. }
  split; [|split].
  - inversion R; cbn [snd draws drawn]; lia.
  - exact Hfull.
  - intros adj Hpass Hrange Hsat. apply (Hfull adj Hpass).
    intros k _. unfold taken, candidate. apply Hsat, Hrange.
Qed.

(** A registration of a name whose 9999 discriminators are all taken. *)
Lemma allocation_is_bounded_witness :
  register_route Sample.trimSpecial EmailGrammar.EMAIL_REGEX
    Sample.years_before Sample.open_config Sample.request Sample.alice
    Sample.quiet (Sample.start (Sample.saturated_store "alice"))
  = (Thrown (FieldErrors "username" "USERNAME_TOO_MANY_USERS"),
     drawn (Sample.start (Sample.saturated_store "alice")) 5).
Proof.
  refine (proj2 (proj2 (allocation_is_bounded Sample.trimSpecial
            EmailGrammar.EMAIL_REGEX Sample.years_before Sample.open_config
            Sample.request Sample.alice Sample.quiet
            (Sample.start (Sample.saturated_store "alice"))))
            (Some "alice@example.org") _ _ _).
  - rewrite fraud_checks_run. f_equal.
  - intro k. cbn [random Sample.quiet].
    pose proof (Z.mod_pos_bound (1233 + Z.of_nat k) 9999). lia.
  - intros n Hn. apply saturated_store_taken. exact Hn.
Defined.

(** ** Order and shape of the rejections *)

Lemma register_route_rejected trimSpecial EMAIL_REGEX years_before
    cfg req body w st e :
  fraud_checks EMAIL_REGEX years_before cfg body w st = (Thrown e, st) ->
  register_route trimSpecial EMAIL_REGEX years_before cfg req body w st
  = (Thrown e, st).
Proof.
  intros H. unfold register_route, bind at 1. now rewrite H.
Qed.

(** C5 (as amended): the origin check comes first: with proxy blocking
    enabled and an origin classified as a proxy the request fails with the
    proxy error, even when registration is disabled; when the origin check
    lets the request through and the call of [adjustEmail] returns, the
    registration-enabled, consent and invite-required checks follow in that
    order, each rejecting before any later one is looked at. *)
Theorem checks_order :
  forall trimSpecial EMAIL_REGEX years_before cfg req body w st,
    let run := register_route trimSpecial EMAIL_REGEX years_before
                 cfg req body w st in
    (Config.blockProxies cfg && ip_is_proxy w = true ->
     run = (Thrown (HTTPError "Your IP is blocked from registration"), st))
    /\ (Config.blockProxies cfg && ip_is_proxy w = false ->
        forall adj,
          adjustEmail_call EMAIL_REGEX (Body.email body) = inr adj ->
          (Config.allowNewRegistration cfg = false ->
           run = (Thrown (FieldErrors "email" "REGISTRATION_DISABLED"), st))
          /\ (Config.allowNewRegistration cfg = true ->
              Body.consent body = false ->
              run = (Thrown (FieldErrors "consent" "CONSENT_REQUIRED"), st))
          /\ (Config.allowNewRegistration cfg = true ->
              Body.consent body = true ->
              Config.requireInvite cfg
              && negb (JS.truthy_opt (Body.invite body)) = true ->
              run = (Thrown (FieldErrors "email" "INVITE_ONLY"), st))).
Proof.
  intros trimSpecial EMAIL_REGEX years_before cfg req body w st run.
  split.
  - intros Hproxy. apply register_route_rejected.
    rewrite fraud_checks_run, Hproxy. reflexivity.
  - intros Hproxy adj Hadj. repeat split.
    + intros Hallow. apply register_route_rejected.
      rewrite fraud_checks_run, Hproxy, Hadj, Hallow. reflexivity.
    + intros Hallow Hconsent. apply register_route_rejected.
      rewrite fraud_checks_run, Hproxy, Hadj, Hallow, Hconsent. reflexivity.
    + intros Hallow Hconsent Hinvite. apply register_route_rejected.
      rewrite fraud_checks_run, Hproxy, Hadj, Hallow, Hconsent, Hinvite.
      reflexivity.
Qed.

(** C5, the claim as stated: registration is disabled, proxies are blocked
    and the origin is a proxy; the request fails with the proxy error, not
    with the registration-disabled error. *)
Lemma proxy_error_precedes_registration_disabled :
  Config.allowNewRegistration Sample.closed_config = false
  /\ register_route Sample.trimSpecial EmailGrammar.EMAIL_REGEX
       Sample.years_before Sample.closed_config Sample.request Sample.alice
       Sample.behind_proxy (Sample.start Sample.empty_store)
     = (Thrown (HTTPError "Your IP is blocked from registration"),
        Sample.start Sample.empty_store)
  /\ HTTPError "Your IP is blocked from registration"
     <> FieldErrors "email" "REGISTRATION_DISABLED".
Proof. repeat split. discriminate. Qed.

(** Registration is disabled and the origin is not a proxy. *)
Lemma checks_order_witness :
  register_route Sample.trimSpecial EmailGrammar.EMAIL_REGEX
    Sample.years_before Sample.closed_config Sample.request Sample.alice
    Sample.quiet (Sample.start Sample.empty_store)
  = (Thrown (FieldErrors "email" "REGISTRATION_DISABLED"),
     Sample.start Sample.empty_store).
Proof.
  refine (proj1 (proj2 (checks_order Sample.trimSpecial
            EmailGrammar.EMAIL_REGEX Sample.years_before Sample.closed_config
            Sample.request Sample.alice Sample.quiet
            (Sample.start Sample.empty_store)) _
            (Some "alice@example.org") _) _); reflexivity.
Defined.

(** C6 (as amended): on a request for which the call of [adjustEmail]
    returns, every rejection by a check other than the origin check is an
    error scoped to a field of the request; the rejection by the origin
    check is a plain [HTTPError] that names no field. *)
Theorem rejections_are_field_scoped_except_proxy :
  forall EMAIL_REGEX years_before cfg body w st adj e st',
    adjustEmail_call EMAIL_REGEX (Body.email body) = inr adj ->
    fraud_checks EMAIL_REGEX years_before cfg body w st = (Thrown e, st') ->
    (Config.blockProxies cfg && ip_is_proxy w = true
     /\ e = HTTPError "Your IP is blocked from registration"
     /\ field_scoped e = false)
    \/ (Config.blockProxies cfg && ip_is_proxy w = false
        /\ field_scoped e = true
        /\ In e check_errors).
Proof.
  intros EMAIL_REGEX years_before cfg body w st adj e st' Hadj Hrun.
  apply fraud_checks_thrown in Hrun.
  destruct Hrun as [(Hp & ->) | [(Hp & Hc) | (Hp & _ & Hin)]].
  - left. auto.
  - congruence.
  - right. split; [exact Hp|]. split; [|exact Hin].
    unfold check_errors in Hin. cbn [In] in Hin.
    repeat destruct Hin as [<- | Hin]; try reflexivity; contradiction.
Qed.

(** C6, the claim as stated: the rejection of a proxy origin names no
    field, and the rejection of a reused fingerprint is reported on the
    e-mail field. *)
Lemma proxy_rejection_is_not_field_scoped :
  (exists e,
      fst (fraud_checks EmailGrammar.EMAIL_REGEX Sample.years_before
             Sample.closed_config Sample.alice Sample.behind_proxy
             (Sample.start Sample.empty_store)) = Thrown e
      /\ field_scoped e = false)
  /\ fst (fraud_checks EmailGrammar.EMAIL_REGEX Sample.years_before
            Sample.single_account_config Sample.alice Sample.quiet
            (Sample.start (Sample.store_of [Sample.same_device])))
     = Thrown (FieldErrors "email" "EMAIL_ALREADY_REGISTERED").
Proof.
  split; [|reflexivity].
  exists (HTTPError "Your IP is blocked from registration").
  split; reflexivity.
Qed.

(** The rejection of a reused fingerprint. *)
Lemma rejections_are_field_scoped_except_proxy_witness :
  (Config.blockProxies Sample.single_account_config
   && ip_is_proxy Sample.quiet = true
   /\ FieldErrors "email" "EMAIL_ALREADY_REGISTERED"
      = HTTPError "Your IP is blocked from registration"
   /\ field_scoped (FieldErrors "email" "EMAIL_ALREADY_REGISTERED") = false)
  \/ (Config.blockProxies Sample.single_account_config
      && ip_is_proxy Sample.quiet = false
      /\ field_scoped (FieldErrors "email" "EMAIL_ALREADY_REGISTERED") = true
      /\ In (FieldErrors "email" "EMAIL_ALREADY_REGISTERED") check_errors).
Proof.
  refine (rejections_are_field_scoped_except_proxy EmailGrammar.EMAIL_REGEX
            Sample.years_before Sample.single_account_config Sample.alice
            Sample.quiet (Sample.start (Sample.store_of [Sample.same_device]))
            (Some "alice@example.org")
            (FieldErrors "email" "EMAIL_ALREADY_REGISTERED")
            (Sample.start (Sample.store_of [Sample.same_device])) _ _);
    reflexivity.
Defined.

(** ** The duplicate e-mail check *)

Lemma strict_eq_Some (o : option string) (s : string) :
  JS.strict_eq o s = true <-> o = Some s.
Proof.
  unfold JS.strict_eq. destruct o as [t|].
  - rewrite String.eqb_eq. split; congruence.
  - split; discriminate.
Qed.

Lemma email_lookup_held (rows : list User.t) (c : string) :
  isSome (find (fun u => JS.strict_eq (User.email u) c) rows) = true
  <-> email_held rows c.
Proof.
  rewrite isSome_find_exists, existsb_exists. unfold email_held.
  split; intros (u & Hin & Hu); exists u; split; auto;
    now apply strict_eq_Some.
Qed.

(** C7 (as amended): when the earlier checks let the request through and
    the supplied e-mail has the canonical form [c], the e-mail check
    rejects with EMAIL_ALREADY_REGISTERED exactly when some account,
    soft-deleted or not, holds [c]; the request then fails with that
    error. *)
Theorem duplicate_email_rejected :
  forall trimSpecial EMAIL_REGEX years_before cfg req body w st e c,
    Config.blockProxies cfg && ip_is_proxy w = false ->
    Body.email body = Some e ->
    JS.truthy e = true ->
    adjustEmail EMAIL_REGEX e = inr (Some c) ->
    JS.truthy c = true ->
    Config.allowNewRegistration cfg = true ->
    Body.consent body = true ->
    Config.requireInvite cfg && negb (JS.truthy_opt (Body.invite body)) = false ->
    (fst (email_check cfg body (Some c) st)
     = Thrown (FieldErrors "email" "EMAIL_ALREADY_REGISTERED")
     <-> email_held (users (store st)) c)
    /\ (email_held (users (store st)) c ->
        register_route trimSpecial EMAIL_REGEX years_before cfg req body w st
        = (Thrown (FieldErrors "email" "EMAIL_ALREADY_REGISTERED"), st)).
Proof.
  intros trimSpecial EMAIL_REGEX years_before cfg req body w st e c
         Hproxy Hemail He Hadj Hc Hallow Hconsent Hinvite.
  assert (Hcheck : fst (email_check cfg body (Some c) st)
                   = if isSome (find (fun u => JS.strict_eq (User.email u) c)
                                  (users (store st)))
                     then Thrown (FieldErrors "email" "EMAIL_ALREADY_REGISTERED")
                     else Normal tt).
  { rewrite email_check_run, Hemail. cbn [JS.truthy_opt].
    now rewrite He, Hc. }
  split.
  - rewrite Hcheck, <- email_lookup_held.
    destruct (isSome _); split; intros H; try reflexivity; discriminate.
  - intros Hheld. apply register_route_rejected.
    rewrite fraud_checks_run, Hproxy, Hemail. cbn [adjustEmail_call].
    rewrite Hadj, Hallow, Hconsent, Hinvite. cbn [negb].
    rewrite Hcheck.
    apply email_lookup_held in Hheld. now rewrite Hheld.
Qed.

(** C7, the claim as stated: the only account holding the address is
    soft-deleted, and the registration is rejected all the same. *)
Lemma deleted_account_blocks_email :
  register_route Sample.trimSpecial EmailGrammar.EMAIL_REGEX
    Sample.years_before Sample.open_config Sample.request Sample.alice
    Sample.quiet (Sample.start (Sample.store_of [Sample.former]))
  = (Thrown (FieldErrors "email" "EMAIL_ALREADY_REGISTERED"),
     Sample.start (Sample.store_of [Sample.former]))
  /\ adjustEmail EmailGrammar.EMAIL_REGEX "alice@example.org"
     = inr (Some "alice@example.org")
  /\ ~ email_held_active (users (Sample.store_of [Sample.former]))
         "alice@example.org".
Proof.
  split; [reflexivity|]. split; [reflexivity|].
  intros (u & Hin & _ & Hdel).
  destruct Hin as [<-|[]]. discriminate.
Qed.

(** The address is held by a soft-deleted account. *)
Lemma duplicate_email_rejected_witness :
  (fst (email_check Sample.open_config Sample.alice (Some "alice@example.org")
          (Sample.start (Sample.store_of [Sample.former])))
   = Thrown (FieldErrors "email" "EMAIL_ALREADY_REGISTERED")
   <-> email_held (users (store (Sample.start (Sample.store_of [Sample.former]))))
         "alice@example.org")
  /\ (email_held (users (store (Sample.start (Sample.store_of [Sample.former]))))
        "alice@example.org" ->
      register_route Sample.trimSpecial EmailGrammar.EMAIL_REGEX
        Sample.years_before Sample.open_config Sample.request Sample.alice
        Sample.quiet (Sample.start (Sample.store_of [Sample.former]))
      = (Thrown (FieldErrors "email" "EMAIL_ALREADY_REGISTERED"),
         Sample.start (Sample.store_of [Sample.former]))).
Proof.
  refine (duplicate_email_rejected Sample.trimSpecial EmailGrammar.EMAIL_REGEX
            Sample.years_before Sample.open_config Sample.request Sample.alice
            Sample.quiet (Sample.start (Sample.store_of [Sample.former]))
            "alice@example.org" "alice@example.org" _ _ _ _ _ _ _ _);
    reflexivity.
Defined.

(** ** Canonical e-mail addresses *)

Lemma replace_in_plus_single_line (s : string) :
  single_line s = true -> JS.replace_dots_plus_aux true s = EmptyString.
Proof.
  induction s as [|c s IH]; [reflexivity|].
  unfold single_line. cbn [JS.all_chars JS.replace_dots_plus_aux].
  intros H. apply andb_true_iff in H. destruct H as [Hc Hs].
  apply negb_true_iff in Hc. rewrite Hc. now apply IH.
Qed.

(** On a local part without line terminator the replacement of the code
    is the canonical form of the specification. *)
Lemma replace_dots_plus_spec (s : string) :
  single_line s = true -> JS.replace_dots_plus s = spec_canonical_local s.
Proof.
  unfold JS.replace_dots_plus, spec_canonical_local.
  induction s as [|c s IH]; [reflexivity|].
  intros H.
  assert (Hs : single_line s = true).
  { unfold single_line in *. cbn [JS.all_chars] in H.
    apply andb_true_iff in H. tauto. }
  cbn [JS.replace_dots_plus_aux before_first_plus].
  destruct (Ascii.eqb c ".") eqn:Hdot.
  - apply Ascii.eqb_eq in Hdot. subst c. cbn [Ascii.eqb Bool.eqb remove_dots].
    now apply IH.
  - destruct (Ascii.eqb c "+") eqn:Hplus.
    + cbn [remove_dots]. now apply replace_in_plus_single_line.
    + cbn [remove_dots]. rewrite Hdot. f_equal. now apply IH.
Qed.

Lemma adjustEmail_parsed EMAIL_REGEX email local domain :
  parses_as EMAIL_REGEX email local domain ->
  adjustEmail EMAIL_REGEX email =
  inr (Some (if recognized_domain domain
             then JS.replace_dots_plus local ++ "@gmail.com"
             else email)).
Proof.
  intros (parts & Hm & Hl & Hd). unfold adjustEmail. rewrite Hm.
  assert (Hlen : (length parts <? 5)%nat = false).
  { apply Nat.ltb_ge. unfold index in Hd.
    destruct (Nat.le_gt_cases (length parts) 5) as [Hle|Hgt]; [|lia].
    rewrite nth_overflow in Hd by exact Hle. discriminate. }
  rewrite Hlen, Hd, Hl. unfold recognized_domain. cbn [JS.strict_eq].
  destruct (_ || _); reflexivity.
Qed.

(** C9: two addresses that the grammar accepts, with the same domain and
    with local parts that differ only by dots and by a plus suffix, are
    mapped to one canonical address when the domain is gmail.com or
    googlemail.com, and are each returned unchanged, hence still distinct,
    when it is not. *)
Theorem dot_plus_variants_collapse :
  forall EMAIL_REGEX e1 e2 u1 u2 d,
    parses_as EMAIL_REGEX e1 u1 d ->
    parses_as EMAIL_REGEX e2 u2 d ->
    single_line u1 = true ->
    single_line u2 = true ->
    dot_plus_variants u1 u2 ->
    (recognized_domain d = true ->
     adjustEmail EMAIL_REGEX e1
     = inr (Some (spec_canonical_local u1 ++ "@gmail.com"))
     /\ adjustEmail EMAIL_REGEX e2 = adjustEmail EMAIL_REGEX e1)
    /\ (recognized_domain d = false ->
        adjustEmail EMAIL_REGEX e1 = inr (Some e1)
        /\ adjustEmail EMAIL_REGEX e2 = inr (Some e2)
        /\ (e1 <> e2 ->
            adjustEmail EMAIL_REGEX e1 <> adjustEmail EMAIL_REGEX e2)).
Proof.
  intros EMAIL_REGEX e1 e2 u1 u2 d H1 H2 Hs1 Hs2 Hvar.
  rewrite (adjustEmail_parsed _ _ _ _ H1), (adjustEmail_parsed _ _ _ _ H2).
  split; intros Hd; rewrite Hd.
  - rewrite (replace_dots_plus_spec _ Hs1), (replace_dots_plus_spec _ Hs2).
    unfold dot_plus_variants in Hvar. rewrite Hvar. split; reflexivity.
  - repeat split. intros Hne Heq. apply Hne. congruence.
Qed.

(** Two spellings of one mailbox, at gmail.com and at example.org. *)
Lemma dot_plus_variants_collapse_witness :
  (adjustEmail EmailGrammar.EMAIL_REGEX "a.li.ce+news@gmail.com"
   = inr (Some (spec_canonical_local "a.li.ce+news" ++ "@gmail.com"))
   /\ adjustEmail EmailGrammar.EMAIL_REGEX "alice@gmail.com"
      = adjustEmail EmailGrammar.EMAIL_REGEX "a.li.ce+news@gmail.com")
  /\ (adjustEmail EmailGrammar.EMAIL_REGEX "a.li.ce+news@example.org"
      = inr (Some "a.li.ce+news@example.org")
      /\ adjustEmail EmailGrammar.EMAIL_REGEX "alice@example.org"
         = inr (Some "alice@example.org")
      /\ ("a.li.ce+news@example.org" <> "alice@example.org" ->
          adjustEmail EmailGrammar.EMAIL_REGEX "a.li.ce+news@example.org"
          <> adjustEmail EmailGrammar.EMAIL_REGEX "alice@example.org")).
Proof.
  split.
  - refine (proj1 (dot_plus_variants_collapse EmailGrammar.EMAIL_REGEX
              "a.li.ce+news@gmail.com" "alice@gmail.com"
              "a.li.ce+news" "alice" "gmail.com" _ _ _ _ _) _);
      try reflexivity; eexists; repeat split; reflexivity.
  - refine (proj2 (dot_plus_variants_collapse EmailGrammar.EMAIL_REGEX
              "a.li.ce+news@example.org" "alice@example.org"
              "a.li.ce+news" "alice" "example.org" _ _ _ _ _) _);
      try reflexivity; eexists; repeat split; reflexivity.
Defined.

(** An address that [adjustEmail] maps to itself: one of an unrecognised
    domain, or one of gmail.com whose local part has no dot and no plus
    suffix left. *)
Lemma adjustEmail_fixed_point EMAIL_REGEX c local domain :
  parses_as EMAIL_REGEX c local domain ->
  recognized_domain domain = false
  \/ JS.replace_dots_plus local ++ "@gmail.com" = c ->
  adjustEmail EMAIL_REGEX c = inr (Some c).
Proof.
  intros Hp Hc. rewrite (adjustEmail_parsed _ _ _ _ Hp).
  destruct Hc as [Hd | Hfix].
  - now rewrite Hd.
  - rewrite Hfix. now destruct (recognized_domain domain).
Qed.

(** C8: [adjustEmail] is not idempotent.  The address "+foo@gmail.com" is
    accepted by the grammar and its local part is a plus suffix only, so
    the result is "@gmail.com"; that result has no local part, the grammar
    refuses it, and applying [adjustEmail] to it yields [undefined]. *)
Theorem adjustEmail_not_idempotent :
  adjustEmail EmailGrammar.EMAIL_REGEX "+foo@gmail.com"
  = inr (Some "@gmail.com")
  /\ adjustEmail EmailGrammar.EMAIL_REGEX "@gmail.com" = inr None.
Proof. split; reflexivity. Qed.

(** ** Idempotence on the modelled grammar *)

Lemma split_last_at_gmail (s : string) :
  EmailGrammar.split_last_at (s ++ "@gmail.com") = Some (s, "gmail.com").
Proof.
  induction s as [|c s IH]; [reflexivity|].
  cbn [append EmailGrammar.split_last_at]. now rewrite IH.
Qed.

Lemma atom_char_not_terminator (c : ascii) :
  EmailGrammar.atom_char c = true -> negb (JS.is_line_terminator c) = true.
Proof.
  unfold EmailGrammar.atom_char, JS.is_line_terminator.
  intros H. apply negb_true_iff in H. apply orb_false_iff in H.
  destruct H as [Hsp _]. unfold EmailGrammar.is_space in Hsp.
  apply negb_true_iff.
  destruct (Ascii.eqb c "010") eqn:E1.
  { apply Ascii.eqb_eq in E1. subst c. discriminate. }
  destruct (Ascii.eqb c "013") eqn:E2.
  { apply Ascii.eqb_eq in E2. subst c. discriminate. }
  reflexivity.
Qed.

Lemma split_on_not_nil (sep : ascii) (s : string) :
  EmailGrammar.split_on sep s <> [].
Proof.
  destruct s as [|c s]; cbn [EmailGrammar.split_on]; [discriminate|].
  destruct (Ascii.eqb c sep); [discriminate|].
  destruct (EmailGrammar.split_on sep s); discriminate.
Qed.

(** Pieces between dots that are all made of atom characters: the whole
    string has no line terminator. *)
Lemma split_on_dot_single_line (s : string) :
  forallb (JS.all_chars EmailGrammar.atom_char) (EmailGrammar.split_on "." s)
  = true ->
  single_line s = true.
Proof.
  unfold single_line.
  induction s as [|c s IH]; [reflexivity|].
  cbn [EmailGrammar.split_on JS.all_chars].
  destruct (Ascii.eqb c ".") eqn:Hdot.
  - apply Ascii.eqb_eq in Hdot. subst c.
    cbn [forallb JS.all_chars andb]. intros H. now apply IH.
  - destruct (EmailGrammar.split_on "." s) as [|p ps] eqn:Hsp.
    + now apply split_on_not_nil in Hsp.
    + cbn [forallb JS.all_chars]. intros H.
      apply andb_true_iff in H. destruct H as [Hp Hps].
      apply andb_true_iff in Hp. destruct Hp as [Hc Hp].
      rewrite (atom_char_not_terminator _ Hc). cbn [andb].
      apply IH. cbn [forallb]. now rewrite Hp, Hps.
Qed.

Lemma unquoted_local_single_line (s : string) :
  EmailGrammar.unquoted_local s = true -> single_line s = true.
Proof.
  unfold EmailGrammar.unquoted_local. intros H.
  apply split_on_dot_single_line.
  rewrite forallb_forall in *. intros a Ha.
  specialize (H a Ha). apply andb_true_iff in H. tauto.
Qed.

Lemma quoted_rest_single_line (s : string) :
  forall seen, EmailGrammar.quoted_rest seen s = true -> single_line s = true.
Proof.
  unfold single_line.
  induction s as [|c s IH]; intros seen; [reflexivity|].
  cbn [EmailGrammar.quoted_rest JS.all_chars].
  destruct s as [|c' s].
  - intros H. apply andb_true_iff in H. destruct H as [Hq _].
    apply Ascii.eqb_eq in Hq. subst c. reflexivity.
  - intros H. apply andb_true_iff in H. destruct H as [Hc Hr].
    rewrite Hc. cbn [andb]. now apply (IH (S seen)).
Qed.

Lemma quoted_local_single_line (s : string) :
  EmailGrammar.quoted_local s = true -> single_line s = true.
Proof.
  destruct s as [|c s]; [discriminate|].
  cbn [EmailGrammar.quoted_local]. intros H.
  apply andb_true_iff in H. destruct H as [Hq Hr].
  apply Ascii.eqb_eq in Hq. subst c.
  unfold single_line. cbn [JS.all_chars].
  apply (quoted_rest_single_line _ _ Hr).
Qed.

(** What a match of the modelled grammar holds. *)
Lemma EMAIL_REGEX_parts (email : string) (parts : RegExpMatchArray) :
  EmailGrammar.EMAIL_REGEX email = Some parts ->
  exists local domain,
    EmailGrammar.split_last_at email = Some (local, domain)
    /\ index parts 1 = Some local
    /\ index parts 5 = Some domain
    /\ single_line local = true.
Proof.
  unfold EmailGrammar.EMAIL_REGEX.
  destruct (EmailGrammar.split_last_at email) as [[local domain]|];
    [|discriminate].
  destruct (EmailGrammar.unquoted_local local) eqn:Hu;
    destruct (EmailGrammar.quoted_local local) eqn:Hq;
    cbn [orb andb];
    try (destruct (EmailGrammar.ip_literal domain || EmailGrammar.domain_name domain);
         [|discriminate]);
    try discriminate;
    intros H; injection H as <-; exists local, domain;
    (repeat split; try reflexivity);
    first [ now apply unquoted_local_single_line
          | now apply quoted_local_single_line ].
Qed.

Lemma canonical_local_is_fixed (s : string) :
  JS.replace_dots_plus (spec_canonical_local s) = spec_canonical_local s.
Proof.
  unfold JS.replace_dots_plus, spec_canonical_local.
  induction s as [|c s IH]; [reflexivity|].
  cbn [before_first_plus].
  destruct (Ascii.eqb c "+") eqn:Hplus; [reflexivity|].
  cbn [remove_dots].
  destruct (Ascii.eqb c ".") eqn:Hdot; [exact IH|].
  cbn [JS.replace_dots_plus_aux]. rewrite Hdot, Hplus. now rewrite IH.
Qed.

(** On the modelled grammar [adjustEmail] maps a canonical form either to
    itself or, when the grammar refuses it, to [undefined]. *)
Lemma adjustEmail_twice (x c : string) :
  adjustEmail EmailGrammar.EMAIL_REGEX x = inr (Some c) ->
  adjustEmail EmailGrammar.EMAIL_REGEX c = inr (Some c)
  \/ (EmailGrammar.EMAIL_REGEX c = None
      /\ adjustEmail EmailGrammar.EMAIL_REGEX c = inr None).
Proof.
  intros Hx.
  destruct (EmailGrammar.EMAIL_REGEX x) as [parts|] eqn:Hm.
  2:{ unfold adjustEmail in Hx. rewrite Hm in Hx. discriminate. }
  destruct (EMAIL_REGEX_parts _ _ Hm) as (u & d & Hsplit & Hu & Hd & Hline).
  assert (Hp : parses_as EmailGrammar.EMAIL_REGEX x u d)
    by (exists parts; auto).
  rewrite (adjustEmail_parsed _ _ _ _ Hp) in Hx.
  destruct (recognized_domain d) eqn:Hrec.
  - injection Hx as <-.
    rewrite (replace_dots_plus_spec _ Hline).
    destruct (EmailGrammar.EMAIL_REGEX (spec_canonical_local u ++ "@gmail.com"))
      as [parts'|] eqn:Hm'.
    + left.
      destruct (EMAIL_REGEX_parts _ _ Hm') as (u' & d' & Hs' & Hu' & Hd' & _).
      rewrite split_last_at_gmail in Hs'. injection Hs' as <- <-.
      apply (adjustEmail_fixed_point _ _ (spec_canonical_local u) "gmail.com").
      * exists parts'. auto.
      * right. now rewrite canonical_local_is_fixed.
    + right. split; [reflexivity|].
      unfold adjustEmail. now rewrite Hm'.
  - injection Hx as <-. left.
    apply (adjustEmail_fixed_point _ _ u d Hp). now left.
Qed.

(** ** Further properties of the route handler *)

(** What the checks have established when they let a request through. *)
Lemma fraud_checks_passed EMAIL_REGEX years_before cfg body w st adj st' :
  fraud_checks EMAIL_REGEX years_before cfg body w st = (Normal adj, st') ->
  Config.blockProxies cfg && ip_is_proxy w = false
  /\ adjustEmail_call EMAIL_REGEX (Body.email body) = inr adj
  /\ Config.allowNewRegistration cfg = true
  /\ Body.consent body = true
  /\ Config.requireInvite cfg && negb (JS.truthy_opt (Body.invite body)) = false
  /\ fst (email_check cfg body adj st) = Normal tt
  /\ fst (date_of_birth_check years_before cfg body w st) = Normal tt
  /\ fst (fingerprint_check cfg body w st) = Normal tt
  /\ fst (captcha_check cfg body st) = Normal tt.
Proof.
  rewrite fraud_checks_run. intros H. injection H as H _. revert H.
  destruct (Config.blockProxies cfg && ip_is_proxy w); [discriminate|].
  destruct (adjustEmail_call EMAIL_REGEX (Body.email body)) as [e|adj0];
    [discriminate|].
  destruct (Config.allowNewRegistration cfg); cbn [negb]; [|discriminate].
  destruct (Body.consent body); cbn [negb]; [|discriminate].
  destruct (Config.requireInvite cfg && _); [discriminate|].
  destruct (fst (email_check cfg body adj0 st)) as [[]| |] eqn:He;
    try discriminate.
  destruct (fst (date_of_birth_check years_before cfg body w st)) as [[]| |];
    try discriminate.
  destruct (fst (fingerprint_check cfg body w st)) as [[]| |];
    try discriminate.
  destruct (fst (captcha_check cfg body st)) as [[]| |]; try discriminate.
  intros H. injection H as <-. repeat split; auto.
Qed.

(** X1: a request without e-mail never gets past line 58: unless the
    origin check rejects it first, the call of [adjustEmail] on the
    missing value throws a [TypeError], whatever the configuration says
    about e-mails, and nothing is drawn or written. *)
Theorem missing_email_crashes :
  forall trimSpecial EMAIL_REGEX years_before cfg req body w st,
    Body.email body = None ->
    register_route trimSpecial EMAIL_REGEX years_before cfg req body w st
    = (Thrown (if Config.blockProxies cfg && ip_is_proxy w
               then HTTPError "Your IP is blocked from registration"
               else TypeError), st).
Proof.
  intros trimSpecial EMAIL_REGEX years_before cfg req body w st Hemail.
  apply register_route_rejected.
  rewrite fraud_checks_run, Hemail. cbn [adjustEmail_call].
  destruct (Config.blockProxies cfg && ip_is_proxy w); reflexivity.
Qed.

(** The request without e-mail under the open configuration. *)
Lemma missing_email_crashes_witness :
  register_route Sample.trimSpecial EmailGrammar.EMAIL_REGEX
    Sample.years_before Sample.open_config Sample.request Cases.anonymous
    Sample.quiet (Sample.start Sample.empty_store)
  = (Thrown TypeError, Sample.start Sample.empty_store).
Proof.
  apply (missing_email_crashes Sample.trimSpecial EmailGrammar.EMAIL_REGEX
           Sample.years_before Sample.open_config Sample.request
           Cases.anonymous Sample.quiet (Sample.start Sample.empty_store)).
  reflexivity.
Defined.

(** X2: a run that ends neither with a token nor with an error of the
    engine has written nothing: the store is as it was and no save was
    issued. *)
Theorem unfinished_run_writes_nothing :
  forall trimSpecial EMAIL_REGEX years_before cfg req body w st,
    let run := register_route trimSpecial EMAIL_REGEX years_before
                 cfg req body w st in
    (forall response, fst run <> Normal response) ->
    (forall message, fst run <> Thrown (QueryFailedError message)) ->
    store (snd run) = store st /\ saves (snd run) = saves st.
Proof.
  intros trimSpecial EMAIL_REGEX years_before cfg req body w st run Hn Hq.
  pose proof (register_route_run trimSpecial EMAIL_REGEX years_before
                cfg req body w st) as R.
  fold run in R, Hn, Hq.
  inversion R as [ e Hf He | r Hf He | adj Hf Hall He
                 | adj n m Hf Hn' Hall Hfree Hsave He
                 | adj n Hf Hn' Hall Hfree Hsave He ];
    rewrite <- He in Hn, Hq; cbn [fst snd store saves drawn] in *.
  - split; reflexivity.
  - split; reflexivity.
  - split; reflexivity.
  - exfalso. now apply (Hq m).
  - exfalso. now apply (Hn (Json_token (token_of w
                 (User.id (candidate_user trimSpecial req body w st adj n))))).
Qed.

(** Registration is disabled: the run ends with a field error. *)
Lemma unfinished_run_writes_nothing_witness :
  store (snd (register_route Sample.trimSpecial EmailGrammar.EMAIL_REGEX
                Sample.years_before Sample.closed_config Sample.request
                Sample.alice Sample.quiet (Sample.start Sample.empty_store)))
  = store (Sample.start Sample.empty_store)
  /\ saves (snd (register_route Sample.trimSpecial EmailGrammar.EMAIL_REGEX
                   Sample.years_before Sample.closed_config Sample.request
                   Sample.alice Sample.quiet (Sample.start Sample.empty_store)))
     = saves (Sample.start Sample.empty_store).
Proof.
  apply (unfinished_run_writes_nothing Sample.trimSpecial
           EmailGrammar.EMAIL_REGEX Sample.years_before Sample.closed_config
           Sample.request Sample.alice Sample.quiet
           (Sample.start Sample.empty_store)).
  - intros response. cbn. discriminate.
  - intros message. cbn. discriminate.
Defined.

(** X3: when a captcha is required and the request carries no captcha
    key, no account is created: the request ends exactly as it would end
    on the rejections of the other checks, and where those checks would
    let it through it is answered with the challenge, made of the site key
    and the service of the configuration; the state is left as it was. *)
Theorem captcha_challenge :
  forall trimSpecial EMAIL_REGEX years_before cfg req body w st,
    Config.requireCaptcha cfg && Config.captcha_enabled cfg = true ->
    JS.truthy_opt (Body.captcha_key body) = false ->
    register_route trimSpecial EMAIL_REGEX years_before cfg req body w st
    = (match fst (fraud_checks EMAIL_REGEX years_before (without_captcha cfg)
                    body w st) with
       | Normal _ =>
           Returned (Captcha_required (Config.captcha_sitekey cfg)
                       (Config.captcha_service cfg))
       | Thrown e => Thrown e
       | Returned r => Returned r
       end, st).
Proof.
  intros trimSpecial EMAIL_REGEX years_before cfg req body w st Hreq Hkey.
  unfold register_route.
  rewrite bind_read_only_run by apply read_only_fraud_checks.
  rewrite !fraud_checks_run. cbn [fst].
  assert (Hc : fst (captcha_check cfg body st)
               = Returned (Captcha_required (Config.captcha_sitekey cfg)
                             (Config.captcha_service cfg))).
  { rewrite captcha_check_run, Hreq, Hkey. reflexivity. }
  assert (Hc' : fst (captcha_check (without_captcha cfg) body st) = Normal tt).
  { rewrite captcha_check_run. reflexivity. }
  rewrite Hc, Hc'.
  change (Config.blockProxies (without_captcha cfg))
    with (Config.blockProxies cfg).
  change (Config.allowNewRegistration (without_captcha cfg))
    with (Config.allowNewRegistration cfg).
  change (Config.requireInvite (without_captcha cfg))
    with (Config.requireInvite cfg).
  change (email_check (without_captcha cfg)) with (email_check cfg).
  change (date_of_birth_check years_before (without_captcha cfg))
    with (date_of_birth_check years_before cfg).
  change (fingerprint_check (without_captcha cfg))
    with (fingerprint_check cfg).
  destruct (Config.blockProxies cfg && ip_is_proxy w); [reflexivity|].
  destruct (adjustEmail_call EMAIL_REGEX (Body.email body)) as [e|adj];
    [reflexivity|].
  destruct (negb (Config.allowNewRegistration cfg)); [reflexivity|].
  destruct (negb (Body.consent body)); [reflexivity|].
  destruct (Config.requireInvite cfg && _); [reflexivity|].
  destruct (fst (email_check cfg body adj st)); try reflexivity.
  destruct (fst (date_of_birth_check years_before cfg body w st));
    try reflexivity.
  destruct (fst (fingerprint_check cfg body w st)); reflexivity.
Qed.

(** An invited request without captcha key under the strict
    configuration is answered with the challenge. *)
Lemma captcha_challenge_witness :
  register_route Sample.trimSpecial EmailGrammar.EMAIL_REGEX
    Sample.years_before Cases.strict_config Sample.request
    Cases.alice_invited Sample.quiet (Sample.start Sample.empty_store)
  = (Returned (Captcha_required (Some "b4a5c1d2-sitekey") (Some "hcaptcha")),
     Sample.start Sample.empty_store).
Proof.
  apply (captcha_challenge Sample.trimSpecial EmailGrammar.EMAIL_REGEX
           Sample.years_before Cases.strict_config Sample.request
           Cases.alice_invited Sample.quiet (Sample.start Sample.empty_store));
    reflexivity.
Defined.

(** X4: the handler reads the invite and the captcha key only for their
    presence and never reads the gift code: two requests that differ only
    in the gift code, in the text of a non-empty invite or in the text of a
    non-empty captcha key have the same outcome.  In particular a captcha
    key is accepted without being verified and an invite without being
    looked up. *)
Theorem invite_and_captcha_key_are_not_inspected :
  forall trimSpecial EMAIL_REGEX years_before cfg req body body' w st,
    same_for_handler body body' ->
    register_route trimSpecial EMAIL_REGEX years_before cfg req body w st
    = register_route trimSpecial EMAIL_REGEX years_before cfg req body' w st.
Proof.
  intros trimSpecial EMAIL_REGEX years_before cfg req body body' w st
         (He & Hu & Hp & Hc & Hf & Hd & Hi & Hk).
  unfold register_route, fraud_checks, email_check, date_of_birth_check,
    fingerprint_check, captcha_check.
  rewrite He, Hu, Hp, Hc, Hf, Hd, Hi, Hk. reflexivity.
Qed.

(** Two requests of alice with different invites, captcha keys and gift
    codes. *)
Lemma invite_and_captcha_key_are_not_inspected_witness :
  register_route Sample.trimSpecial EmailGrammar.EMAIL_REGEX
    Sample.years_before Cases.strict_config Sample.request
    Cases.alice_with_extras Sample.quiet (Sample.start Sample.empty_store)
  = register_route Sample.trimSpecial EmailGrammar.EMAIL_REGEX
      Sample.years_before Cases.strict_config Sample.request
      Cases.alice_with_other_extras Sample.quiet
      (Sample.start Sample.empty_store).
Proof.
  apply (invite_and_captcha_key_are_not_inspected Sample.trimSpecial
           EmailGrammar.EMAIL_REGEX Sample.years_before Cases.strict_config
           Sample.request Cases.alice_with_extras
           Cases.alice_with_other_extras Sample.quiet
           (Sample.start Sample.empty_store)).
  repeat split.
Defined.



Lemma find_none_tag (rows : list User.t) (discriminator username : string) :
  lookup_tag rows discriminator username = None ->
  ~ tag_held rows username discriminator.
Proof.
  unfold lookup_tag. intros Hnone (r & Hin & Hu & Hd).
  pose proof (find_none _ _ Hnone r Hin) as Hr. cbn beta in Hr.
  rewrite Hu, Hd, !String.eqb_refl in Hr. discriminate.
Qed.

Lemma isSome_false {A} (o : option A) : isSome o = false -> o = None.
Proof. destruct o; [discriminate|reflexivity]. Qed.

(** X6: the account that a successful registration stores holds the
    result of [adjustEmail] as its e-mail, not the address as it was
    sent, the trimmed user name and the hash of the password; when the
    request carried a non-empty address, the stored one is non-empty and
    no account held it when it was looked up.  The list of fingerprints of
    the account is empty: the fingerprint of the request is not
    recorded. *)
Theorem stored_account :
  forall trimSpecial EMAIL_REGEX years_before cfg req body w st token st',
    register_route trimSpecial EMAIL_REGEX years_before cfg req body w st
    = (Normal (Json_token token), st') ->
    exists user,
      users (store st')
      = (users (store st) ++ concurrent_commits w ++ [user])%list
      /\ In (User.settings user) (user_settings (store st'))
      /\ adjustEmail_call EMAIL_REGEX (Body.email body)
         = inr (User.email user)
      /\ (forall e, Body.email body = Some e -> JS.truthy e = true ->
            exists c, User.email user = Some c
                      /\ JS.truthy c = true
                      /\ ~ email_held (users (store st)) c)
      /\ User.username user = trimSpecial (Body.username body)
      /\ User.data_hash user = Some (bcrypt_hash w (Body.password body))
      /\ User.fingerprints user = []
      /\ User.id user = snowflake w
      /\ token = token_of w (snowflake w)
      /\ UserSettings.locale (User.settings user) = language req.
Proof.
  intros trimSpecial EMAIL_REGEX years_before cfg req body w st token st' Hrun.
  pose proof (register_route_run trimSpecial EMAIL_REGEX years_before
                cfg req body w st) as R.
  rewrite Hrun in R.
  inversion R as [ | | | | adj n Hf Hn Hall Hfree Hsave Htok ]. subst.
  exists (candidate_user trimSpecial req body w st adj n).
  apply fraud_checks_passed in Hf.
  destruct Hf as (_ & Hadj & _ & _ & _ & Hemail & _).
  unfold candidate_user, route_user.
  cbn [store users user_settings with_user with_others User.settings
       User.email User.username User.data_hash User.fingerprints User.id
       UserSettings.locale].
  split; [now rewrite app_assoc|].
  split; [apply in_or_app; right; now left|].
  split; [exact Hadj|].
  split; [|repeat split].
  intros e He Ht. rewrite email_check_run, He in Hemail.
  cbn [JS.truthy_opt] in Hemail. rewrite Ht in Hemail.
  destruct adj as [c|]; [|discriminate].
  destruct (JS.truthy c) eqn:Hc; cbn [negb] in Hemail; [|discriminate].
  exists c. split; [reflexivity|]. split; [exact Hc|].
  intros Hheld. apply email_lookup_held in Hheld.
  rewrite Hheld in Hemail. discriminate.
Qed.

(** The registration of alice on the empty store. *)
Lemma stored_account_witness :
  exists user,
    users (store (snd (register_route Sample.trimSpecial
                         EmailGrammar.EMAIL_REGEX Sample.years_before
                         Sample.open_config Sample.request Sample.alice
                         Sample.quiet (Sample.start Sample.empty_store))))
    = (users (store (Sample.start Sample.empty_store))
       ++ concurrent_commits Sample.quiet ++ [user])%list
    /\ In (User.settings user)
         (user_settings
            (store (snd (register_route Sample.trimSpecial
                           EmailGrammar.EMAIL_REGEX Sample.years_before
                           Sample.open_config Sample.request Sample.alice
                           Sample.quiet (Sample.start Sample.empty_store)))))
    /\ adjustEmail_call EmailGrammar.EMAIL_REGEX (Body.email Sample.alice)
       = inr (User.email user)
    /\ (forall e, Body.email Sample.alice = Some e -> JS.truthy e = true ->
          exists c, User.email user = Some c
                    /\ JS.truthy c = true
                    /\ ~ email_held
                         (users (store (Sample.start Sample.empty_store))) c)
    /\ User.username user = Sample.trimSpecial (Body.username Sample.alice)
    /\ User.data_hash user
       = Some (bcrypt_hash Sample.quiet (Body.password Sample.alice))
    /\ User.fingerprints user = []
    /\ User.id user = snowflake Sample.quiet
    /\ "token.1041712969216000000" = token_of Sample.quiet (snowflake Sample.quiet)
    /\ UserSettings.locale (User.settings user) = language Sample.request.
Proof.
  apply (stored_account Sample.trimSpecial EmailGrammar.EMAIL_REGEX
           Sample.years_before Sample.open_config Sample.request Sample.alice
           Sample.quiet (Sample.start Sample.empty_store)
           "token.1041712969216000000").
  vm_compute. reflexivity.
Defined.

(** X7: the user name and discriminator of a newly registered account were
    held by no row, deleted or not, of the table that the handler read;
    without commits of other requests in between, the new row is the only
    one of the table with its user name and discriminator. *)
Theorem registered_tag_is_fresh :
  forall trimSpecial EMAIL_REGEX years_before cfg req body w st token st',
    register_route trimSpecial EMAIL_REGEX years_before cfg req body w st
    = (Normal (Json_token token), st') ->
    exists user,
      users (store st')
      = (users (store st) ++ concurrent_commits w ++ [user])%list
      /\ ~ tag_held (users (store st))
           (User.username user) (User.discriminator user)
      /\ (concurrent_commits w = [] ->
          forall r, In r (users (store st')) ->
                    User.username r = User.username user ->
                    User.discriminator r = User.discriminator user ->
                    r = user).
Proof.
  intros trimSpecial EMAIL_REGEX years_before cfg req body w st token st' Hrun.
  pose proof (register_route_run trimSpecial EMAIL_REGEX years_before
                cfg req body w st) as R.
  rewrite Hrun in R.
  inversion R as [ | | | | adj n Hf Hn Hall Hfree Hsave Htok ]. subst.
  exists (candidate_user trimSpecial req body w st adj n).
  assert (Hfresh : ~ tag_held (users (store st))
                     (User.username (candidate_user trimSpecial req body w st adj n))
                     (User.discriminator (candidate_user trimSpecial req body w st adj n))).
  { unfold taken in Hfree. apply isSome_false in Hfree.
    apply find_none_tag in Hfree. exact Hfree. }
  cbn [store users with_user with_others].
  split; [now rewrite app_assoc|].
  split; [exact Hfresh|].
  intros Hnone r Hin Hu Hd. rewrite Hnone, app_nil_r in Hin.
  apply in_app_or in Hin. destruct Hin as [Hin | [Heq | []]]; [|now symmetry].
  exfalso. apply Hfresh. exists r. auto.
Qed.

(** The registration of alice when two candidates are taken. *)
Lemma registered_tag_is_fresh_witness :
  exists user,
    users (store (snd (register_route Sample.trimSpecial
                         EmailGrammar.EMAIL_REGEX Sample.years_before
                         Sample.open_config Sample.request Sample.alice
                         Sample.quiet (Sample.start Cases.two_taken))))
    = (users (store (Sample.start Cases.two_taken))
       ++ concurrent_commits Sample.quiet ++ [user])%list
    /\ ~ tag_held (users (store (Sample.start Cases.two_taken)))
         (User.username user) (User.discriminator user)
    /\ (concurrent_commits Sample.quiet = [] ->
        forall r,
          In r (users (store (snd (register_route Sample.trimSpecial
                                     EmailGrammar.EMAIL_REGEX
                                     Sample.years_before Sample.open_config
                                     Sample.request Sample.alice Sample.quiet
                                     (Sample.start Cases.two_taken))))) ->
          User.username r = User.username user ->
          User.discriminator r = User.discriminator user ->
          r = user).
Proof.
  apply (registered_tag_is_fresh Sample.trimSpecial EmailGrammar.EMAIL_REGEX
           Sample.years_before Sample.open_config Sample.request Sample.alice
           Sample.quiet (Sample.start Cases.two_taken)
           "token.1041712969216000000").
  vm_compute. reflexivity.
Defined.

(** X8: the loop stops at the first candidate that is free: when the
    checks have passed, the first [k] candidates are taken and the next one
    is free, the handler makes exactly [k + 1] draws and saves the account
    under that candidate; the outcome is then the verdict of the engine on
    that one save. *)
Theorem first_free_candidate_is_chosen :
  forall trimSpecial EMAIL_REGEX years_before cfg req body w st adj k,
    fraud_checks EMAIL_REGEX years_before cfg body w st = (Normal adj, st) ->
    (k < 5)%nat ->
    (forall j, (j < k)%nat -> taken trimSpecial body w st j = true) ->
    taken trimSpecial body w st k = false ->
    let user := candidate_user trimSpecial req body w st adj (S k) in
    User.discriminator user = candidate w st k
    /\ register_route trimSpecial EMAIL_REGEX years_before cfg req body w st
       = match user_save_rejects w (with_others w (store st)) user with
         | Some message =>
             (Thrown (QueryFailedError message),
              {| store := with_others w (store st);
                 draws := (draws st + S k)%nat;
                 saves := S (saves st) |})
         | None =>
             (Normal (Json_token (token_of w (User.id user))),
              {| store := with_user (with_others w (store st)) user;
                 draws := (draws st + S k)%nat;
                 saves := S (saves st) |})
         end.
Proof.
  intros trimSpecial EMAIL_REGEX years_before cfg req body w st adj k
         Hpass Hk Htaken Hfree user.
  split.
  { unfold user, candidate_user, route_user. cbn [User.discriminator].
    replace (S k - 1)%nat with k by lia. reflexivity. }
  pose proof (register_route_run trimSpecial EMAIL_REGEX years_before
                cfg req body w st) as R.
  assert (Hn : forall n, (1 <= n <= 5)%nat ->
                 (forall j, (j < n - 1)%nat ->
                            taken trimSpecial body w st j = true) ->
                 taken trimSpecial body w st (n - 1) = false ->
                 n = S k).
  { intros n Hn Hall Hf.
    destruct (Nat.lt_trichotomy (n - 1) k) as [Hlt | [Heq | Hgt]].
    - rewrite (Htaken _ Hlt) in Hf. discriminate.
    - lia.
    - rewrite (Hall _ Hgt) in Hfree. discriminate. }
  inversion R as [ e Hf He | r Hf He | adj' Hf Hall He
                 | adj' n m Hf Hn' Hall Hfree' Hsave He
                 | adj' n Hf Hn' Hall Hfree' Hsave He ].
  - congruence.
  - congruence.
  - rewrite (Hall k Hk) in Hfree. discriminate.
  - assert (adj' = adj) by congruence. subst adj'.
    rewrite (Hn n Hn' Hall Hfree') in *. fold user in Hsave.
    now rewrite Hsave.
  - assert (adj' = adj) by congruence. subst adj'.
    rewrite (Hn n Hn' Hall Hfree') in *. fold user in Hsave.
    now rewrite Hsave.
Qed.

(** "1234" and "1235" are taken: alice is registered as alice#1236 after
    three draws. *)
Lemma first_free_candidate_is_chosen_witness :
  User.discriminator
    (candidate_user Sample.trimSpecial Sample.request Sample.alice
       Sample.quiet (Sample.start Cases.two_taken)
       (Some "alice@example.org") 3) = "1236"
  /\ draws (snd (register_route Sample.trimSpecial EmailGrammar.EMAIL_REGEX
                   Sample.years_before Sample.open_config Sample.request
                   Sample.alice Sample.quiet (Sample.start Cases.two_taken)))
     = 3%nat.
Proof.
  destruct (first_free_candidate_is_chosen Sample.trimSpecial
              EmailGrammar.EMAIL_REGEX Sample.years_before Sample.open_config
              Sample.request Sample.alice Sample.quiet
              (Sample.start Cases.two_taken) (Some "alice@example.org") 2)
    as [Hd Hrun].
  - reflexivity.
  - lia.
  - intros j Hj. destruct j as [|[|j]]; [reflexivity | reflexivity | lia].
  - reflexivity.
  - split.
    + rewrite Hd. reflexivity.
    + rewrite Hrun. reflexivity.
Defined.

(** ** Further properties of [adjustEmail] *)

Lemma line_terminator_is_plain (c : ascii) :
  JS.is_line_terminator c = true -> plain_char c = true.
Proof.
  unfold JS.is_line_terminator. intros H. apply orb_true_iff in H.
  destruct H as [H|H]; apply Ascii.eqb_eq in H; subst c; reflexivity.
Qed.

Lemma replace_aux_plain (s : string) :
  forall in_plus,
    JS.all_chars plain_char (JS.replace_dots_plus_aux in_plus s) = true.
Proof.
  induction s as [|c s IH]; intros in_plus; [reflexivity|].
  cbn [JS.replace_dots_plus_aux]. destruct in_plus.
  - destruct (JS.is_line_terminator c) eqn:Hl; [|apply IH].
    cbn [JS.all_chars]. now rewrite (line_terminator_is_plain _ Hl), IH.
  - destruct (Ascii.eqb c ".") eqn:Hdot; [apply IH|].
    destruct (Ascii.eqb c "+") eqn:Hplus; [apply IH|].
    cbn [JS.all_chars]. unfold plain_char at 1. now rewrite Hdot, Hplus, IH.
Qed.

Lemma replace_plain_is_identity (s : string) :
  JS.all_chars plain_char s = true -> JS.replace_dots_plus s = s.
Proof.
  unfold JS.replace_dots_plus.
  induction s as [|c s IH]; [reflexivity|].
  cbn [JS.all_chars JS.replace_dots_plus_aux]. intros H.
  apply andb_true_iff in H. destruct H as [Hc Hs].
  unfold plain_char in Hc. apply negb_true_iff, orb_false_iff in Hc.
  destruct Hc as [Hdot Hplus]. rewrite Hdot, Hplus. f_equal. now apply IH.
Qed.

(** X9: the replacement of line 269 leaves no dot and no plus sign in any
    string, also in one of several lines, and applying it once more
    changes nothing; so the canonical form of an address of gmail.com or
    googlemail.com is a local part without dot and without plus sign
    followed by "@gmail.com". *)
Theorem canonical_local_part_is_plain :
  forall EMAIL_REGEX email local domain,
    parses_as EMAIL_REGEX email local domain ->
    recognized_domain domain = true ->
    adjustEmail EMAIL_REGEX email
    = inr (Some (JS.replace_dots_plus local ++ "@gmail.com"))
    /\ JS.all_chars plain_char (JS.replace_dots_plus local) = true
    /\ JS.replace_dots_plus (JS.replace_dots_plus local)
       = JS.replace_dots_plus local.
Proof.
  intros EMAIL_REGEX email local domain Hp Hd.
  rewrite (adjustEmail_parsed _ _ _ _ Hp), Hd.
  split; [reflexivity|].
  pose proof (replace_aux_plain local false) as Hplain.
  split; [exact Hplain|].
  now apply replace_plain_is_identity.
Qed.

(** An address of googlemail.com with dots and a suffix. *)
Lemma canonical_local_part_is_plain_witness :
  adjustEmail EmailGrammar.EMAIL_REGEX "a.li.ce+news@googlemail.com"
  = inr (Some (JS.replace_dots_plus "a.li.ce+news" ++ "@gmail.com"))
  /\ JS.all_chars plain_char (JS.replace_dots_plus "a.li.ce+news") = true
  /\ JS.replace_dots_plus (JS.replace_dots_plus "a.li.ce+news")
     = JS.replace_dots_plus "a.li.ce+news".
Proof.
  apply (canonical_local_part_is_plain EmailGrammar.EMAIL_REGEX
           "a.li.ce+news@googlemail.com" "a.li.ce+news" "googlemail.com").
  - eexists. repeat split; reflexivity.
  - reflexivity.
Defined.

(** X10: gmail.com and googlemail.com are one domain for [adjustEmail]:
    two addresses, one of each domain or both of the same, whose local
    parts differ only by dots and by a plus suffix have the same canonical
    form. *)
Theorem googlemail_is_gmail :
  forall EMAIL_REGEX e1 e2 u1 u2 d1 d2,
    parses_as EMAIL_REGEX e1 u1 d1 ->
    parses_as EMAIL_REGEX e2 u2 d2 ->
    recognized_domain d1 = true ->
    recognized_domain d2 = true ->
    single_line u1 = true ->
    single_line u2 = true ->
    dot_plus_variants u1 u2 ->
    adjustEmail EMAIL_REGEX e1 = adjustEmail EMAIL_REGEX e2.
Proof.
  intros EMAIL_REGEX e1 e2 u1 u2 d1 d2 H1 H2 Hd1 Hd2 Hs1 Hs2 Hvar.
  rewrite (adjustEmail_parsed _ _ _ _ H1), (adjustEmail_parsed _ _ _ _ H2).
  rewrite Hd1, Hd2.
  rewrite (replace_dots_plus_spec _ Hs1), (replace_dots_plus_spec _ Hs2).
  unfold dot_plus_variants in Hvar. now rewrite Hvar.
Qed.

(** The same mailbox written at googlemail.com and at gmail.com. *)
Lemma googlemail_is_gmail_witness :
  adjustEmail EmailGrammar.EMAIL_REGEX "a.li.ce+news@googlemail.com"
  = adjustEmail EmailGrammar.EMAIL_REGEX "alice@gmail.com".
Proof.
  apply (googlemail_is_gmail EmailGrammar.EMAIL_REGEX
           "a.li.ce+news@googlemail.com" "alice@gmail.com"
           "a.li.ce+news" "alice" "googlemail.com" "gmail.com");
    try reflexivity; eexists; repeat split; reflexivity.
Defined.

(** ** Further properties of [User.register] *)

(** X11: the locale that [User.register] stores is never empty and never
    the bare "en": it is the language of the request when there is one
    other than "en", and "en-US" in every other case. *)
Theorem stored_locale :
  forall trimSpecial input w,
    exists locale,
      UserSettings.locale (User.settings (register_user trimSpecial input w))
      = Some locale
      /\ locale = register_language input
      /\ locale <> EmptyString
      /\ locale <> "en"
      /\ (locale = "en-US"
          \/ exists r, RegisterInput.req input = Some r
                       /\ language r = Some locale).
Proof.
  intros trimSpecial input w. exists (register_language input).
  split; [reflexivity|]. split; [reflexivity|].
  unfold register_language.
  destruct (RegisterInput.req input) as [r|].
  2:{ cbn. repeat split; try discriminate. now left. }
  destruct (language r) as [l|] eqn:Hl.
  2:{ cbn. repeat split; try discriminate. now left. }
  cbn [JS.strict_eq].
  destruct (String.eqb l "en") eqn:Hen.
  { repeat split; try discriminate. now left. }
  apply String.eqb_neq in Hen.
  destruct l as [|c l]; cbn [JS.truthy].
  { repeat split; try discriminate. now left. }
  repeat split; try discriminate; try exact Hen.
  right. exists r. auto.
Qed.

(** X12: [User.register] looks nothing up before it saves: when the engine
    accepts the saves, two calls for user names that are equal once
    trimmed both succeed and leave two accounts with the same user name
    and the same discriminator. *)
Theorem User_register_keeps_no_uniqueness :
  forall trimSpecial first second w1 w2 st,
    (forall s u, user_save_rejects w1 s u = None) ->
    (forall s x, settings_save_rejects w1 s x = None) ->
    (forall s u, user_save_rejects w2 s u = None) ->
    (forall s x, settings_save_rejects w2 s x = None) ->
    trimSpecial (RegisterInput.username first)
    = trimSpecial (RegisterInput.username second) ->
    exists u1 u2 st',
      register_twice trimSpecial first second w1 w2 st = (Normal (u1, u2), st')
      /\ users (store st') = (users (store st) ++ [u1; u2])%list
      /\ User.username u1 = User.username u2
      /\ User.discriminator u1 = User.discriminator u2.
Proof.
  intros trimSpecial first second w1 w2 st Hu1 Hs1 Hu2 Hs2 Hname.
  exists (register_user trimSpecial first w1),
         (register_user trimSpecial second w2).
  unfold register_twice, bind.
  rewrite User_register_run. cbv zeta. rewrite Hu1, Hs1.
  rewrite User_register_run. cbv zeta. rewrite Hu2, Hs2.
  eexists. split; [reflexivity|].
  cbn [store users with_user]. rewrite <- app_assoc.
  split; [reflexivity|]. split; [exact Hname|reflexivity].
Qed.

(** alice, then alice followed by a newline. *)
Lemma User_register_keeps_no_uniqueness_witness :
  exists u1 u2 st',
    register_twice Sample.trimSpecial Sample.alice_input Cases2.alice_again
      Cases2.permissive Cases2.permissive (Sample.start Sample.empty_store)
    = (Normal (u1, u2), st')
    /\ users (store st')
       = (users (store (Sample.start Sample.empty_store)) ++ [u1; u2])%list
    /\ User.username u1 = User.username u2
    /\ User.discriminator u1 = User.discriminator u2.
Proof.
  apply (User_register_keeps_no_uniqueness Sample.trimSpecial
           Sample.alice_input Cases2.alice_again
           Cases2.permissive Cases2.permissive
           (Sample.start Sample.empty_store)); reflexivity.
Defined.

(** ** Two requests in a row *)

(** X13: once a registration with an e-mail has succeeded, the next
    request whose address has the same canonical form is rejected with
    EMAIL_ALREADY_REGISTERED when it reaches the e-mail check, and it
    writes nothing: at gmail.com a second account cannot be opened by
    moving dots or adding a plus suffix. *)
Theorem same_mailbox_cannot_register_twice :
  forall trimSpecial EMAIL_REGEX years_before cfg req first second w1 w2 st
         e1 e2 token,
    fst (register_route trimSpecial EMAIL_REGEX years_before cfg req
           first w1 st) = Normal (Json_token token) ->
    Body.email first = Some e1 ->
    JS.truthy e1 = true ->
    Body.email second = Some e2 ->
    JS.truthy e2 = true ->
    adjustEmail EMAIL_REGEX e2 = adjustEmail EMAIL_REGEX e1 ->
    Config.blockProxies cfg && ip_is_proxy w2 = false ->
    Body.consent second = true ->
    Config.requireInvite cfg && negb (JS.truthy_opt (Body.invite second))
    = false ->
    route_twice trimSpecial EMAIL_REGEX years_before cfg req
      first second w1 w2 st
    = (Thrown (FieldErrors "email" "EMAIL_ALREADY_REGISTERED"),
       snd (register_route trimSpecial EMAIL_REGEX years_before cfg req
              first w1 st)).
Proof.
  intros trimSpecial EMAIL_REGEX years_before cfg req first second w1 w2 st
         e1 e2 token Hrun He1 Ht1 He2 Ht2 Hsame Hproxy Hconsent Hinvite.
  pose proof (register_route_run trimSpecial EMAIL_REGEX years_before
                cfg req first w1 st) as R.
  unfold route_twice, bind at 1.
  destruct (register_route trimSpecial EMAIL_REGEX years_before cfg req
              first w1 st) as [c1 st1] eqn:Hfirst.
  cbn [fst snd] in *. subst c1.
  inversion R as [ | | | | adj n Hf Hn Hall Hfree Hsave [Htok Hst] ].
  apply fraud_checks_passed in Hf.
  destruct Hf as (_ & Hadj & Hallow & _ & _ & Hemail & _).
  rewrite He1 in Hadj. cbn [adjustEmail_call] in Hadj.
  rewrite email_check_run, He1 in Hemail. cbn [JS.truthy_opt] in Hemail.
  rewrite Ht1 in Hemail.
  destruct adj as [c|]; [|discriminate].
  destruct (JS.truthy c) eqn:Hc; cbn [negb] in Hemail; [|discriminate].
  clear Hemail.
  set (st1' := {| store := with_user (with_others w1 (store st))
                             (candidate_user trimSpecial req first w1 st
                                (Some c) n);
                  draws := (draws st + n)%nat;
                  saves := S (saves st) |}).
  assert (Hheld : email_held (users (store st1')) c).
  { exists (candidate_user trimSpecial req first w1 st (Some c) n).
    split; [|reflexivity].
    cbn [st1' store users with_user]. apply in_or_app; right; now left. }
  assert (Hsecond :
            fraud_checks EMAIL_REGEX years_before cfg second w2 st1'
            = (Thrown (FieldErrors "email" "EMAIL_ALREADY_REGISTERED"), st1')).
  { rewrite fraud_checks_run, Hproxy, He2. cbn [adjustEmail_call].
    rewrite Hsame, Hadj, Hallow, Hconsent, Hinvite. cbn [negb].
    rewrite email_check_run, He2. cbn [JS.truthy_opt].
    rewrite Ht2, Hc. cbn [negb].
    apply email_lookup_held in Hheld. now rewrite Hheld. }
  unfold bind.
  rewrite (register_route_rejected trimSpecial _ _ _ req _ _ _ _ Hsecond).
  reflexivity.
Qed.

(** alice@gmail.com, then a.li.ce+second@googlemail.com. *)
Lemma same_mailbox_cannot_register_twice_witness :
  route_twice Sample.trimSpecial EmailGrammar.EMAIL_REGEX Sample.years_before
    Sample.open_config Sample.request Cases2.alice_gmail
    Cases2.alice_gmail_variant Sample.quiet Cases2.permissive
    (Sample.start Sample.empty_store)
  = (Thrown (FieldErrors "email" "EMAIL_ALREADY_REGISTERED"),
     snd (register_route Sample.trimSpecial EmailGrammar.EMAIL_REGEX
            Sample.years_before Sample.open_config Sample.request
            Cases2.alice_gmail Sample.quiet
            (Sample.start Sample.empty_store))).
Proof.
  apply (same_mailbox_cannot_register_twice Sample.trimSpecial
           EmailGrammar.EMAIL_REGEX Sample.years_before Sample.open_config
           Sample.request Cases2.alice_gmail Cases2.alice_gmail_variant
           Sample.quiet Cases2.permissive (Sample.start Sample.empty_store)
           "alice@gmail.com" "a.li.ce+second@googlemail.com"
           "token.1041712969216000000"); reflexivity.
Defined.

(** ** The projections of a user *)

Lemma set_fresh {V} (k : JSObject.PropertyKey) (v : V) (o : JSObject.t V) :
  (forall k' v', In (k', v') o -> JSObject.key_eqb k k' = false) ->
  JSObject.set k v o = (o ++ [(k, v)])%list.
Proof.
  induction o as [|[k' v'] o IH]; intros Hfresh; [reflexivity|].
  cbn [JSObject.set app]. rewrite (Hfresh k' v') by now left.
  f_equal. apply IH. intros k0 v0 Hin. apply (Hfresh k0 v0). now right.
Qed.

Lemma enum_from_entries (members : list string) :
  NoDup members ->
  forall i o,
    (forall k v, In (k, v) o ->
       match k with
       | JSObject.Index n => (n < i)%nat
       | JSObject.Named s => ~ In s members
       end) ->
    enum_from i members o = (o ++ enum_entries i members)%list.
Proof.
  induction members as [|m rest IH]; intros Hnd i o Ho.
  - cbn. now rewrite app_nil_r.
  - inversion Hnd as [|? ? Hm Hrest]; subst.
    cbn [enum_from enum_entries].
    rewrite (set_fresh (JSObject.Named m)).
    2:{ intros k' v' Hin. specialize (Ho k' v' Hin).
        destruct k' as [n|s]; cbn [JSObject.key_eqb]; [reflexivity|].
        apply String.eqb_neq. intros <-. apply Ho. now left. }
    rewrite (set_fresh (JSObject.Index i)).
    2:{ intros k' v' Hin. apply in_app_or in Hin.
        destruct Hin as [Hin | [Heq | []]].
        - specialize (Ho k' v' Hin).
          destruct k' as [n|s]; cbn [JSObject.key_eqb]; [|reflexivity].
          apply Nat.eqb_neq. lia.
        - injection Heq as <- _. reflexivity. }
    rewrite IH.
    + now rewrite <- !app_assoc.
    + exact Hrest.
    + intros k v Hin. apply in_app_or in Hin.
      destruct Hin as [Hin | [Heq | []]].
      * apply in_app_or in Hin. destruct Hin as [Hin | [Heq | []]].
        -- specialize (Ho k v Hin). destruct k as [n|s]; [lia|].
           intros Hs. apply Ho. now right.
        -- injection Heq as <- _. exact Hm.
      * injection Heq as <- _. lia.
Qed.

Lemma index_properties_entries (members : list string) :
  forall i,
    JSObject.index_properties (enum_entries i members)
    = combine (seq i (length members)) (map MemberName members).
Proof.
  induction members as [|m rest IH]; intros i; [reflexivity|].
  cbn [enum_entries JSObject.index_properties length seq map combine].
  rewrite IH. destruct rest as [|m' rest']; [reflexivity|].
  cbn [length seq map combine JSObject.insert_index].
  replace (i <=? S i)%nat with true by (symmetry; apply Nat.leb_le; lia).
  reflexivity.
Qed.

Lemma named_properties_entries (members : list string) :
  forall i,
    map snd (JSObject.named_properties (enum_entries i members))
    = map Ordinal (seq i (length members)).
Proof.
  induction members as [|m rest IH]; intros i; [reflexivity|].
  cbn [enum_entries JSObject.named_properties length seq map snd].
  now rewrite IH.
Qed.

Lemma strings_of_app (a b : list EnumValue) :
  strings_of (a ++ b) = (strings_of a ++ strings_of b)%list.
Proof.
  induction a as [|[s|n] a IH]; cbn [app strings_of]; [reflexivity| |exact IH].
  now rewrite IH.
Qed.

Lemma strings_of_names (members : list string) :
  strings_of (map MemberName members) = members.
Proof.
  induction members as [|m rest IH]; [reflexivity|].
  cbn [map strings_of]. now rewrite IH.
Qed.

Lemma strings_of_ordinals (l : list nat) : strings_of (map Ordinal l) = [].
Proof. induction l as [|n l IH]; [reflexivity|exact IH]. Qed.

Lemma map_snd_combine {A B} (l : list A) (l' : list B) :
  length l = length l' -> map snd (combine l l') = l'.
Proof.
  revert l'. induction l as [|a l IH]; intros [|b l'] H; try discriminate;
    [reflexivity|].
  cbn [combine map snd]. f_equal. apply IH. now injection H.
Qed.

Lemma enum_keys_of_distinct (members : list string) :
  NoDup members -> enum_keys members = members.
Proof.
  intros Hnd. unfold enum_keys, enum_object, JSObject.values.
  rewrite (enum_from_entries members Hnd 0 []) by (intros k v []).
  cbn [app]. rewrite index_properties_entries, named_properties_entries.
  rewrite map_snd_combine by (now rewrite length_seq, length_map).
  now rewrite strings_of_app, strings_of_names, strings_of_ordinals, app_nil_r.
Qed.

(** X14: the keys that the projections are built from.  Filtering the
    values of the object of a numeric enumeration for strings gives back
    the names of its members, each once and in the order of their
    declaration, provided no name is declared twice. *)
Theorem enum_keys_are_member_names :
  forall members, NoDup members -> enum_keys members = members.
Proof. exact enum_keys_of_distinct. Qed.

Lemma NoDup_PublicUserEnum : NoDup PublicUserEnum.
Proof.
  unfold PublicUserEnum.
  repeat (constructor; [cbn [In]; intuition discriminate|]).
  constructor.
Qed.

(** The public projection is the list of the members of [PublicUserEnum]. *)
Lemma enum_keys_are_member_names_witness :
  enum_keys PublicUserEnum = PublicUserEnum.
Proof.
  apply (enum_keys_are_member_names PublicUserEnum).
  exact NoDup_PublicUserEnum.
Defined.

Lemma fold_set_distinct {V} (this : string -> V) (keys : list string) :
  NoDup keys ->
  forall o : JSObject.t V,
    (forall k v, In (k, v) o ->
       match k with
       | JSObject.Index _ => True
       | JSObject.Named s => ~ In s keys
       end) ->
    fold_left (fun user x => JSObject.set (JSObject.Named x) (this x) user)
      keys o
    = (o ++ map (fun x => (JSObject.Named x, this x)) keys)%list.
Proof.
  induction keys as [|x keys IH]; intros Hnd o Ho.
  - cbn. now rewrite app_nil_r.
  - inversion Hnd as [|? ? Hx Hrest]; subst.
    cbn [fold_left map]. rewrite set_fresh.
    2:{ intros k' v' Hin. specialize (Ho k' v' Hin).
        destruct k' as [n|s]; cbn [JSObject.key_eqb]; [reflexivity|].
        apply String.eqb_neq. intros <-. apply Ho. now left. }
    rewrite IH; [now rewrite <- app_assoc | exact Hrest |].
    intros k v Hin. apply in_app_or in Hin.
    destruct Hin as [Hin | [Heq | []]].
    + specialize (Ho k v Hin). destruct k as [n|s]; [exact I|].
      intros Hs. apply Ho. now right.
    + injection Heq as <- _. exact Hx.
Qed.

Lemma get_of_keys {V} (this : string -> V) (keys : list string) (k : string) :
  JSObject.get (map (fun x => (JSObject.Named x, this x)) keys)
    (JSObject.Named k)
  = if existsb (String.eqb k) keys then Some (this k) else None.
Proof.
  induction keys as [|x keys IH]; [reflexivity|].
  cbn [map JSObject.get JSObject.key_eqb existsb].
  destruct (String.eqb k x) eqn:Hk; cbn [orb]; [|exact IH].
  apply String.eqb_eq in Hk. now subst.
Qed.

Lemma toPublicUser_entries {V} (this : string -> V) :
  toPublicUser this
  = map (fun x => (JSObject.Named x, this x)) PublicUserEnum.
Proof.
  unfold toPublicUser, PublicUserProjection.
  rewrite (enum_keys_of_distinct _ NoDup_PublicUserEnum).
  rewrite (fold_set_distinct this _ NoDup_PublicUserEnum [])
    by (intros k v []).
  reflexivity.
Qed.

(** X15: whatever the user object holds, the object that [toPublicUser]
    returns has exactly the thirteen properties named in [PublicUserEnum],
    in that order, each with the value the user has under that name; it
    has no property under any other name, so none under a member of
    [PrivateUserEnum] other than "premium_type", which both enumerations
    declare, and none for the password data, the fingerprints or the
    rights. *)
Theorem toPublicUser_projects :
  forall (V : Type) (this : string -> V),
    property_names (toPublicUser this) = PublicUserEnum
    /\ (forall k,
          JSObject.get (toPublicUser this) (JSObject.Named k)
          = if existsb (String.eqb k) PublicUserEnum
            then Some (this k) else None)
    /\ (forall k, In k PrivateUserEnum -> k <> "premium_type" ->
          JSObject.get (toPublicUser this) (JSObject.Named k) = None)
    /\ (forall k, In k ["data"; "fingerprints"; "rights"; "settings";
                        "totp_secret"; "extended_settings"] ->
          JSObject.get (toPublicUser this) (JSObject.Named k) = None).
Proof.
  intros V this. rewrite toPublicUser_entries.
  split; [reflexivity|].
  split; [intros k; apply get_of_keys|].
  split; intros k Hin; [intros Hne|]; rewrite get_of_keys;
    cbn [In PrivateUserEnum] in Hin;
    repeat (destruct Hin as [<- | Hin]; [try reflexivity; congruence|]);
    contradiction.
Qed.

(** ** Reading a public user *)

(** X16: [getPublicUser] called without a condition in its options gives
    the first row whose id is the one asked for, and the error of an empty
    lookup exactly when no row has that id; the columns it asks for are
    always the thirteen public ones followed by those of the options.  A
    condition in the options replaces the one on the id: the id given to
    the call then plays no part in the result. *)
Theorem getPublicUser_lookup :
  forall user_id opts rows,
    (forall row columns,
        getPublicUser user_id opts rows = Entity row columns ->
        In row rows
        /\ columns
           = (PublicUserEnum
              ++ match opts with
                 | Some o => match FindOneOptions.select o with
                             | Some s => s
                             | None => []
                             end
                 | None => []
                 end)%list)
    /\ ((opts = None
         \/ exists o, opts = Some o /\ FindOneOptions.where_ o = None) ->
        (forall row columns,
            getPublicUser user_id opts rows = Entity row columns ->
            User.id row = user_id)
        /\ (getPublicUser user_id opts rows = EntityNotFoundError
            <-> forall row, In row rows -> User.id row <> user_id))
    /\ (forall o condition,
          opts = Some o -> FindOneOptions.where_ o = Some condition ->
          forall other_id,
            getPublicUser other_id opts rows = getPublicUser user_id opts rows).
Proof.
  intros user_id opts rows.
  assert (Hproj : PublicUserProjection = PublicUserEnum)
    by apply (enum_keys_of_distinct _ NoDup_PublicUserEnum).
  split; [|split].
  - intros row columns. unfold getPublicUser. rewrite Hproj.
    destruct (find _ rows) as [u|] eqn:Hfind; [|discriminate].
    intros H. injection H as <- <-.
    split; [|reflexivity]. now apply find_some in Hfind.
  - intros Hnone.
    assert (Hrun : getPublicUser user_id opts rows
                   = match find (fun u => String.eqb (User.id u) user_id) rows with
                     | Some u =>
                         Entity u
                           (PublicUserProjection
                            ++ match opts with
                               | Some o => match FindOneOptions.select o with
                                           | Some s => s
                                           | None => []
                                           end
                               | None => []
                               end)%list
                     | None => EntityNotFoundError
                     end).
    { unfold getPublicUser.
      destruct Hnone as [-> | (o & -> & Ho)]; [reflexivity|].
      now rewrite Ho. }
    rewrite Hrun.
    destruct (find _ rows) as [u|] eqn:Hfind.
    + apply find_some in Hfind. destruct Hfind as [Hin Hid].
      apply String.eqb_eq in Hid.
      split.
      * intros row columns H. injection H as <- _. exact Hid.
      * split; [discriminate|]. intros Hall. now elim (Hall u Hin).
    + split; [discriminate|]. split; [|reflexivity].
      intros _ row Hin Hid.
      pose proof (find_none _ _ Hfind row Hin) as Hrow. cbn beta in Hrow.
      apply String.eqb_neq in Hrow. contradiction.
  - intros o condition -> Ho other_id. unfold getPublicUser.
    now rewrite Ho.
Qed.

(** ** User flags *)

Lemma flags_table :
  forallb UserFlags.single_low_bit UserFlags.FLAGS = true
  /\ forallb (fun f => forallb (UserFlags.disjoint f) UserFlags.FLAGS)
       UserFlags.FLAGS = true
  /\ UserFlags.ALL = Z.ones 20.
Proof. repeat split; vm_compute; reflexivity. Qed.

(** X17: each named user flag is a single bit among the bits 0 to 19, two
    flags of different names share no bit, and together the flags fill
    exactly those twenty bits; so no combination of named flags reaches
    [CUSTOM_USER_FLAG_OFFSET], and no multiple of that offset shares a bit
    with a named flag. *)
Theorem user_flags_are_disjoint_low_bits :
  (forall name value,
      In (name, value) UserFlags.FLAGS ->
      (exists k, 0 <= k < 20 /\ value = 2 ^ k)
      /\ value < CUSTOM_USER_FLAG_OFFSET)
  /\ (forall name value name' value',
        In (name, value) UserFlags.FLAGS ->
        In (name', value') UserFlags.FLAGS ->
        name <> name' ->
        Z.land value value' = 0)
  /\ UserFlags.ALL = 2 ^ 20 - 1
  /\ UserFlags.ALL < CUSTOM_USER_FLAG_OFFSET
  /\ (forall custom,
        Z.land UserFlags.ALL (custom * CUSTOM_USER_FLAG_OFFSET) = 0).
Proof.
  destruct flags_table as (Hbits & Hdisj & Hall).
  rewrite forallb_forall in Hbits, Hdisj.
  split; [|split; [|split; [|split]]].
  - intros name value Hin. specialize (Hbits _ Hin).
    unfold UserFlags.single_low_bit in Hbits. cbn [snd] in Hbits.
    apply andb_true_iff in Hbits. destruct Hbits as [Hk Hlt].
    apply existsb_exists in Hk. destruct Hk as (k & Hk & Hv).
    apply in_seq in Hk. apply Z.eqb_eq in Hv. apply Z.ltb_lt in Hlt.
    split; [|exact Hlt]. exists (Z.of_nat k). split; [lia|exact Hv].
  - intros name value name' value' Hin Hin' Hne.
    specialize (Hdisj _ Hin). rewrite forallb_forall in Hdisj.
    specialize (Hdisj _ Hin'). unfold UserFlags.disjoint in Hdisj.
    cbn [fst snd] in Hdisj. apply orb_true_iff in Hdisj.
    destruct Hdisj as [Heq | Hz].
    + apply String.eqb_eq in Heq. contradiction.
    + now apply Z.eqb_eq.
  - rewrite Hall. reflexivity.
  - rewrite Hall. reflexivity.
  - intros custom. rewrite Hall. unfold CUSTOM_USER_FLAG_OFFSET.
    rewrite Z.shiftl_1_l, <- Z.shiftl_mul_pow2 by lia.
    apply Z.bits_inj'. intros n Hn.
    rewrite Z.land_spec, Z.bits_0.
    destruct (Z.lt_ge_cases n 20) as [Hlt | Hge].
    + rewrite Z.shiftl_spec_low by lia. apply andb_false_r.
    + rewrite Z.ones_spec_high by lia. reflexivity.
Qed.

(** ** The task scheduled by [User.register] *)

Lemma join_all_calls {Memberships}
    (addToGuild : string -> string -> Memberships -> option string * Memberships)
    (user_id : string) (guilds : list string) :
  forall m,
    let '(calls, console, _) :=
      AutoJoin.join_all Memberships addToGuild user_id guilds m in
    map fst calls = guilds
    /\ (length console <= length guilds)%nat
    /\ (console = [] <-> forall c, In c calls -> snd c = None).
Proof.
  induction guilds as [|guild rest IH]; intros m.
  - cbn. split; [reflexivity|]. split; [lia|].
    split; [intros _ c [] | reflexivity].
  - cbn [AutoJoin.join_all].
    destruct (addToGuild user_id guild m) as [outcome m'].
    specialize (IH m').
    destruct (AutoJoin.join_all Memberships addToGuild user_id rest m')
      as [[calls console] m''].
    destruct IH as (Hcalls & Hlen & Hnone).
    cbn [map fst length]. split; [now rewrite Hcalls|].
    destruct outcome as [e|].
    + split; [cbn [length]; lia|].
      split; [discriminate|].
      intros Hall. specialize (Hall (guild, Some e) (or_introl eq_refl)).
      discriminate.
    + split; [lia|].
      split.
      * intros Hc c [<- | Hin]; [reflexivity|]. now apply Hnone.
      * intros Hall. apply Hnone. intros c Hin. apply Hall. now right.
Qed.

(** X18: the auto-join task calls [Member.addToGuild] once for each
    configured guild, in the order of the configuration, whether or not
    earlier calls were rejected: a rejection is written to the console and
    the loop goes on.  The task makes no call when auto-join is disabled
    or no guild is configured, and it writes nothing when no call is
    rejected. *)
Theorem auto_join_tries_every_guild :
  forall (Memberships : Type)
         (addToGuild : string -> string -> Memberships
                       -> option string * Memberships)
         cfg user_id m,
    let '(calls, console, _) :=
      AutoJoin.task Memberships addToGuild cfg user_id m in
    map fst calls
    = (if AutoJoin.enabled cfg
       then match AutoJoin.guilds cfg with
            | Some gs => gs
            | None => []
            end
       else [])
    /\ (length console <= length calls)%nat
    /\ (console = [] <-> forall c, In c calls -> snd c = None).
Proof.
  intros Memberships addToGuild cfg user_id m. unfold AutoJoin.task.
  destruct (AutoJoin.enabled cfg).
  - pose proof (join_all_calls addToGuild user_id
                  (match AutoJoin.guilds cfg with
                   | Some gs => gs
                   | None => []
                   end) m) as H.
    destruct (AutoJoin.join_all _ _ _ _ _) as [[calls console] m'].
    destruct H as (Hcalls & Hlen & Hnone).
    split; [exact Hcalls|]. split; [|exact Hnone].
    now rewrite <- Hcalls, length_map in Hlen.
  - cbn. split; [reflexivity|]. split; [lia|].
    split; [intros _ c [] | reflexivity].
Qed.

(** ** Further properties of the discriminator and of the fingerprint *)

(** X19: the four characters computed at line 166 determine the draw: two
    draws between 1 and 9999 that give the same discriminator are equal,
    so the 9999 possible draws give 9999 different discriminators, and
    reading the discriminator as a decimal number gives the draw back. *)
Theorem discriminator_determines_draw :
  forall n m,
    1 <= n <= 9999 ->
    1 <= m <= 9999 ->
    JS.decimal_value (JS.padStart (JS.toString n) 4 "0") = n
    /\ String.length (JS.padStart (JS.toString n) 4 "0") = 4%nat
    /\ (JS.padStart (JS.toString n) 4 "0" = JS.padStart (JS.toString m) 4 "0"
        -> n = m).
Proof.
  intros n m Hn Hm.
  destruct (pad4_in_range n Hn) as [Hvn Hdn].
  destruct (pad4_in_range m Hm) as [_ Hdm].
  unfold pad4 in *.
  split; [exact Hdn|].
  split; [now apply valid_discriminator_spec in Hvn|].
  intros Heq. rewrite <- Hdn, <- Hdm. now rewrite Heq.
Qed.

(** The draws 7 and 70. *)
Lemma discriminator_determines_draw_witness :
  JS.decimal_value (JS.padStart (JS.toString 7) 4 "0") = 7
  /\ String.length (JS.padStart (JS.toString 7) 4 "0") = 4%nat
  /\ (JS.padStart (JS.toString 7) 4 "0" = JS.padStart (JS.toString 70) 4 "0"
      -> 7 = 70).
Proof.
  apply (discriminator_determines_draw 7 70); lia.
Defined.

(** X20: when several accounts per device are allowed, the fingerprint of
    the request has no effect on the outcome of the registration: it is
    neither looked up nor stored. *)
Theorem fingerprint_unused_when_multiple_accounts_allowed :
  forall trimSpecial EMAIL_REGEX years_before cfg req body w st fingerprint,
    Config.allowMultipleAccounts cfg = true ->
    register_route trimSpecial EMAIL_REGEX years_before cfg req
      (with_fingerprint fingerprint body) w st
    = register_route trimSpecial EMAIL_REGEX years_before cfg req body w st.
Proof.
  intros trimSpecial EMAIL_REGEX years_before cfg req body w st fingerprint
         Hallow.
  unfold register_route, fraud_checks, fingerprint_check.
  rewrite Hallow. reflexivity.
Qed.

(** The request of alice from another device. *)
Lemma fingerprint_unused_when_multiple_accounts_allowed_witness :
  register_route Sample.trimSpecial EmailGrammar.EMAIL_REGEX
    Sample.years_before Sample.open_config Sample.request
    (with_fingerprint (Some "another-device") Sample.alice) Sample.quiet
    (Sample.start (Sample.store_of [Sample.same_device]))
  = register_route Sample.trimSpecial EmailGrammar.EMAIL_REGEX
      Sample.years_before Sample.open_config Sample.request Sample.alice
      Sample.quiet (Sample.start (Sample.store_of [Sample.same_device])).
Proof.
  apply (fingerprint_unused_when_multiple_accounts_allowed Sample.trimSpecial
           EmailGrammar.EMAIL_REGEX Sample.years_before Sample.open_config
           Sample.request Sample.alice Sample.quiet
           (Sample.start (Sample.store_of [Sample.same_device]))
           (Some "another-device")).
  reflexivity.
Defined.

(** ** Reading back a registered account *)

Lemma find_app_fresh {A} (f : A -> bool) (l : list A) (a : A) :
  (forall x, In x l -> f x = false) -> f a = true ->
  find f (l ++ [a]) = Some a.
Proof.
  induction l as [|x l IH]; intros Hl Ha; cbn [app find].
  - now rewrite Ha.
  - rewrite (Hl x) by now left. apply IH; [|exact Ha].
    intros y Hy. apply Hl. now right.
Qed.

(** X21: an account that [User.register] has created can be read back:
    when no earlier row has its id, [getPublicUser] on that id finds the
    new account and asks for the thirteen public columns. *)
Theorem registered_account_is_found :
  forall trimSpecial input w st user st',
    User_register trimSpecial input w st = (Normal user, st') ->
    (forall row, In row (users (store st)) -> User.id row <> User.id user) ->
    getPublicUser (User.id user) None (users (store st'))
    = Entity user PublicUserEnum.
Proof.
  intros trimSpecial input w st user st' Hrun Hfresh.
  rewrite User_register_run in Hrun. cbv zeta in Hrun.
  destruct (user_save_rejects w (store st) (register_user trimSpecial input w))
    as [m|]; [discriminate|].
  destruct (settings_save_rejects w _ _) as [m|]; [discriminate|].
  injection Hrun as <- <-.
  unfold getPublicUser. cbn [store users with_user].
  rewrite find_app_fresh.
  - rewrite app_nil_r.
    now rewrite (enum_keys_of_distinct _ NoDup_PublicUserEnum :
                   PublicUserProjection = PublicUserEnum).
  - intros x Hx. apply String.eqb_neq. now apply Hfresh.
  - apply String.eqb_refl.
Qed.

(** The registration of alice on the empty store. *)
Lemma registered_account_is_found_witness :
  getPublicUser
    (User.id (register_user Sample.trimSpecial Sample.alice_input
                Cases2.permissive))
    None
    (users (store (snd (User_register Sample.trimSpecial Sample.alice_input
                          Cases2.permissive
                          (Sample.start Sample.empty_store)))))
  = Entity (register_user Sample.trimSpecial Sample.alice_input
              Cases2.permissive) PublicUserEnum.
Proof.
  apply (registered_account_is_found Sample.trimSpecial Sample.alice_input
           Cases2.permissive (Sample.start Sample.empty_store)).
  - reflexivity.
  - intros row [].
Defined.
